(** * life3biotech/aisg: configuration registry, annotation converter and
      inference wrapper

    A shallow embedding of
      - [src/life3_biotech/config.py]            ([PipelineConfig]),
      - [src/life3_biotech/data_prep/preprocess_efficientdet.py]
                                                 ([EfficientDetPipeline]),
      - [src/inference/inference_pipeline.py]    ([PeekingDuckPipeline]).

    Python code is modelled in a state-and-exception monad over an explicit
    [world]: the [pconst] registry, the file system, the logger output and
    the calls made to pipeline nodes.  A raised exception keeps the side
    effects made before it, as in Python. *)

From Stdlib Require Import ZArith Ascii String List.
From Stdlib Require Import Floats.SpecFloat.
From stdpp Require Import base strings gmap list.

Open Scope string_scope.
Open Scope Z_scope.
Open Scope list_scope.
Set Warnings "-register-all".

(* ===================================================================== *)
(** * Python values, exceptions and the monad                              *)
(* ===================================================================== *)

(** A decoded colour image as [cv2.imread] returns it: rows of pixels, each
    pixel three channel values. *)
Definition image : Type := list (list (Z * Z * Z)).

(** The Python objects that flow through the three modules. *)
Inductive value : Type :=
| VNone
| VBool (b : bool)
| VInt (z : Z)
| VFloat (f : spec_float)
| VStr (s : string)
| VPath (s : string)                      (* pathlib.Path / PurePath *)
| VList (l : list value)
| VTuple (l : list value)
| VDict (d : list (string * value))       (* insertion-ordered dict *)
| VImage (img : image).                   (* numpy array of an image *)

Inductive exn : Type :=
| KeyError (k : string)
| IndexError
| TypeError
| ValueError (msg : string)
| OverflowError
| AttributeError (name : string)
| ConstantError (name : string)           (* pconst: rebinding a constant *)
| UnboundLocalError (name : string)
| OSError (path : string)                 (* open() or to_csv() failed *)
| CvError                                 (* cv2.error *)
| ExternalError (msg : string).           (* raised inside a library call *)

Inductive result (A : Type) : Type :=
| Ok (a : A)
| Raise (e : exn).
Arguments Ok {A} a.
Arguments Raise {A} e.

Definition is_ok {A} (r : result A) : bool :=
  match r with Ok _ => true | Raise _ => false end.

(** Computations over a state [S] that return or raise. *)
Definition M (S A : Type) : Type := S -> result A * S.

Definition ret {S A} (a : A) : M S A := fun s => (Ok a, s).
Definition raise {S A} (e : exn) : M S A := fun s => (Raise e, s).
Definition bind {S A B} (c : M S A) (k : A -> M S B) : M S B :=
  fun s => match c s with
           | (Ok a, s') => k a s'
           | (Raise e, s') => (Raise e, s')
           end.
Definition lift {S A} (r : result A) : M S A := fun s => (r, s).

Notation "x <- c1 ;; c2" := (bind c1 (fun x => c2))
  (at level 100, c1 at next level, right associativity).
Notation "c1 ;; c2" := (bind c1 (fun _ => c2))
  (at level 100, right associativity).

(** ** Dictionaries and the operators used on configuration values *)

Fixpoint dict_get (d : list (string * value)) (k : string) : option value :=
  match d with
  | [] => None
  | (k', v) :: d' => if String.eqb k' k then Some v else dict_get d' k
  end.

Definition dict_keys (d : list (string * value)) : list string := map fst d.

Definition is_str (k : string) (v : value) : bool :=
  match v with VStr s => String.eqb s k | _ => false end.

Definition is_substring (k s : string) : bool :=
  match String.index 0 k s with Some _ => true | None => false end.

(** [k in v] for a string [k]. *)
Definition py_contains (k : string) (v : value) : result bool :=
  match v with
  | VDict d => Ok (bool_decide (is_Some (dict_get d k)))
  | VStr s => Ok (is_substring k s)
  | VList l | VTuple l => Ok (existsb (is_str k) l)
  | VImage _ => Ok false
  | VNone | VBool _ | VInt _ | VFloat _ | VPath _ => Raise TypeError
  end.

(** [v[k]] for a string [k]. *)
Definition py_getitem (v : value) (k : string) : result value :=
  match v with
  | VDict d =>
      match dict_get d k with
      | Some x => Ok x
      | None => Raise (KeyError k)
      end
  | VImage _ => Raise IndexError
  | _ => Raise TypeError
  end.

Fixpoint chars (s : string) : list value :=
  match s with
  | EmptyString => []
  | String c s' => VStr (String c EmptyString) :: chars s'
  end.

Definition pixel_value (p : Z * Z * Z) : value :=
  let '(a, b, c) := p in VList [VInt a; VInt b; VInt c].

(** [tuple(v)]. *)
Definition py_tuple (v : value) : result value :=
  match v with
  | VList l | VTuple l => Ok (VTuple l)
  | VStr s => Ok (VTuple (chars s))
  | VDict d => Ok (VTuple (map VStr (dict_keys d)))
  | VImage img => Ok (VTuple (map (fun row => VList (map pixel_value row)) img))
  | VNone | VBool _ | VInt _ | VFloat _ | VPath _ => Raise TypeError
  end.

(* ===================================================================== *)
(** * The world                                                            *)
(* ===================================================================== *)

Inductive level : Type := DEBUG | INFO | ERROR.

(** A log message: plain text, or an f-string with one formatted object. *)
Inductive message : Type :=
| Text (s : string)
| Fmt (pre : string) (arg : value) (post : string).

(** A file on disk.  A CSV file is kept as the rows that were written, with
    the header row apart. *)
Inductive file : Type :=
| CsvFile (header : option (list string)) (rows : list (list value))
| ImageFile (img : image)
| OtherFile (content : string).

Record world : Type := World {
  consts : gmap string value;        (* pconst.const: its bound names *)
  const_writes : list string;        (* every executed [const.X = v], in order *)
  files : gmap string file;          (* the file system, by path *)
  log : list (level * message);      (* what the logger received *)
  node_calls : list value            (* inputs of every model-node run() *)
}.

Definition set_consts (c : gmap string value) (w : world) : world :=
  World c (const_writes w) (files w) (log w) (node_calls w).
Definition add_const_write (n : string) (w : world) : world :=
  World (consts w) (const_writes w ++ [n]) (files w) (log w) (node_calls w).
Definition set_files (f : gmap string file) (w : world) : world :=
  World (consts w) (const_writes w) f (log w) (node_calls w).
Definition add_log (e : level * message) (w : world) : world :=
  World (consts w) (const_writes w) (files w) (log w ++ [e]) (node_calls w).
Definition add_node_call (v : value) (w : world) : world :=
  World (consts w) (const_writes w) (files w) (log w) (node_calls w ++ [v]).

Definition fresh_world : world := World ∅ [] ∅ [] [].

Definition logger (l : level) (m : message) : M world unit :=
  fun w => (Ok tt, add_log (l, m) w).

(** ** pconst

    [pconst.const] is the third-party registry object.  Binding a name that
    is already bound raises [ConstantError] and leaves the registry as it
    was; reading an unbound name raises [AttributeError].  The registry has
    no other writer in these modules. *)
Module pconst.

Definition setattr (name : string) (v : value) : M world unit :=
  fun w =>
    let w1 := add_const_write name w in
    match consts w !! name with
    | Some _ => (Raise (ConstantError name), w1)
    | None => (Ok tt, set_consts (<[name := v]> (consts w)) w1)
    end.

Definition getattr (name : string) : M world value :=
  fun w =>
    match consts w !! name with
    | Some v => (Ok v, w)
    | None => (Raise (AttributeError name), w)
    end.

End pconst.

(* ===================================================================== *)
(** * config.py: PipelineConfig                                            *)
(* ===================================================================== *)

Module PipelineConfig.

(** The statements a section block of [__init__] is made of; [section] is
    the nested dict the block reads ([data_prep_params], [train_params],
    [ed_params]). *)
Inductive stmt : Type :=
| Assign (name key : string)
    (* const.NAME = section["key"] *)
| AssignIfPresent (name key : string)
    (* if 'key' in section: const.NAME = section['key'] *)
| AssignOrNone (name key : string)
    (* if 'key' in section: const.NAME = section['key']
       else: const.NAME = None *)
| AssignTupleIfPresent (name key : string).
    (* if 'key' in section: const.NAME = tuple(section['key']) *)

Definition stmt_name (s : stmt) : string :=
  match s with
  | Assign n _ | AssignIfPresent n _ | AssignOrNone n _
  | AssignTupleIfPresent n _ => n
  end.

Definition stmt_key (s : stmt) : string :=
  match s with
  | Assign _ k | AssignIfPresent _ k | AssignOrNone _ k
  | AssignTupleIfPresent _ k => k
  end.

Definition exec_stmt (section : value) (s : stmt) : M world unit :=
  match s with
  | Assign name key =>
      v <- lift (py_getitem section key) ;;
      pconst.setattr name v
  | AssignIfPresent name key =>
      b <- lift (py_contains key section) ;;
      if (b : bool) then
        v <- lift (py_getitem section key) ;;
        pconst.setattr name v
      else ret tt
  | AssignOrNone name key =>
      b <- lift (py_contains key section) ;;
      if (b : bool) then
        v <- lift (py_getitem section key) ;;
        pconst.setattr name v
      else pconst.setattr name VNone
  | AssignTupleIfPresent name key =>
      b <- lift (py_contains key section) ;;
      if (b : bool) then
        v <- lift (py_getitem section key) ;;
        t <- lift (py_tuple v) ;;
        pconst.setattr name t
      else ret tt
  end.

Fixpoint exec_block (section : value) (body : list stmt) : M world unit :=
  match body with
  | [] => ret tt
  | s :: rest => exec_stmt section s ;; exec_block section rest
  end.

(** Lines 26-58. *)
Definition data_prep_body : list stmt :=
  [ Assign "DATA_SUBDIRS_PATH_LIST" "data_subdirs_paths";
    Assign "PROCESSED_DATA_PATH" "processed_data_path";
    Assign "INTERIM_DATA_PATH" "interim_data_path";
    Assign "RAW_DATA_PATH" "raw_data_path";
    Assign "LOAD_DATA" "load_data";
    Assign "MODELS" "models";
    Assign "ANNOTATIONS_SUBDIR" "annotations_subdir";
    Assign "IMAGES_SUBDIR" "images_subdir";
    Assign "COCO_ANNOTATION_FILENAME" "coco_annotations_filename";
    Assign "CLASS_MAP" "class_map";
    Assign "REMAP_CLASSES" "remap_classes";
    Assign "CLASS_REMAPPING" "class_remapping";
    Assign "EXCLUDED_IMAGES" "excluded_images";
    Assign "COMBINED_ANNOTATIONS_FILENAME" "combined_annotations_filename";
    Assign "ACCEPTED_IMAGE_FORMATS" "accepted_image_formats";
    Assign "TILE_DATA_DIR_PATHS" "tile_data_dir_paths";
    Assign "TILE_SLICE_HEIGHT" "tile_slice_height";
    Assign "TILE_SLICE_WIDTH" "tile_slice_width";
    Assign "TILE_OVERLAP_HEIGHT_RATIO" "tile_overlap_height_ratio";
    Assign "TILE_OVERLAP_WIDTH_RATIO" "tile_overlap_width_ratio";
    Assign "TARGET_COL" "target_col";
    Assign "SAVE_DATA_SPLITS" "save_data_splits";
    Assign "VAL_SIZE" "val_size";
    Assign "TEST_SIZE" "test_size";
    Assign "TRAIN_SET_FILENAME" "train_base_filename";
    Assign "VAL_SET_FILENAME" "validation_base_filename";
    Assign "TEST_SET_FILENAME" "test_base_filename" ].

(** Lines 64-83. *)
Definition train_body : list stmt :=
  [ Assign "TRAIN_MODEL_NAME" "model_name";
    Assign "TRAIN_EARLY_STOPPING" "early_stopping";
    Assign "TRAIN_EARLY_STOP_PATIENCE" "patience";
    Assign "EVAL_ONLY" "eval_only";
    Assign "LR_SCHEDULER" "lr_scheduler";
    Assign "INITIAL_LR" "initial_lr";
    AssignIfPresent "TRAIN_LR_REDUCE_FACTOR" "lr_reduce_factor";
    AssignIfPresent "TRAIN_LR_REDUCE_PATIENCE" "lr_reduce_patience";
    AssignIfPresent "TRAIN_LR_MIN_DELTA" "lr_min_delta";
    AssignIfPresent "RUN_TRAIN_NMS" "run_nms";
    AssignIfPresent "TRAIN_NMS_THRESHOLD" "nms_threshold";
    AssignIfPresent "TRAIN_SCORE_THRESHOLD" "score_threshold" ].

(** Lines 93-97. *)
Definition inference_body : list stmt :=
  [ Assign "INFERENCE_MODEL_NAME" "model_name";
    Assign "INFERENCE_INPUT_DIR" "input_data_dir";
    Assign "INFERENCE_SAVE_OUTPUT" "save_output_image";
    Assign "INFERENCE_OUTPUT_PATH" "inference_output_path";
    Assign "INFERENCE_MODE" "inference_mode" ].

(** Lines 102-124. *)
Definition efficientdet_body : list stmt :=
  [ AssignIfPresent "TRAIN_ANNOTATIONS_PATH" "train_annotations_path";
    AssignIfPresent "VAL_ANNOTATIONS_PATH" "val_annotations_path";
    AssignIfPresent "TEST_ANNOTATIONS_PATH" "test_annotations_path";
    AssignIfPresent "SAVED_MODEL_PATH" "snapshot-path";
    AssignIfPresent "BEST_MODEL" "saved_best_model";
    AssignOrNone "ANCHOR_BOX_SCALES" "anchor_box_scales";
    AssignIfPresent "ANCHOR_BOX_RATIOS" "anchor_box_ratios";
    AssignIfPresent "ED_TRAIN_BACKBONE" "train_backbone";
    AssignTupleIfPresent "ED_IMAGE_SIZES" "image_sizes";
    AssignIfPresent "ED_INFERENCE_BACKBONE" "inference_backbone" ].

(** [PipelineConfig.__init__(self, params, logger)]. *)
Definition __init__ (params : value) : M world unit :=
  logger DEBUG (Fmt "Loading params into constants: " params EmptyString) ;;
  (* Initialise data pipeline constants *)
  b <- lift (py_contains "data_prep" params) ;;
  (if (b : bool) then
     logger INFO (Text "Initialising data pipeline constants") ;;
     data_prep_params <- lift (py_getitem params "data_prep") ;;
     exec_block data_prep_params data_prep_body
   else ret tt) ;;
  (* Initialise constants for training all models *)
  b <- lift (py_contains "train" params) ;;
  (if (b : bool) then
     train_params <- lift (py_getitem params "train") ;;
     logger INFO (Text "Initialising training constants") ;;
     exec_block train_params train_body
   else ret tt) ;;
  (* Initialise constants for augmentation pipeline within training *)
  b <- lift (py_contains "train_augmentation" params) ;;
  (if (b : bool) then
     train_augment_params <- lift (py_getitem params "train_augmentation") ;;
     ret tt
   else ret tt) ;;
  (* Initialise constants for model inference *)
  b <- lift (py_contains "inference" params) ;;
  (if (b : bool) then
     train_params <- lift (py_getitem params "inference") ;;
     exec_block train_params inference_body
   else ret tt) ;;
  b <- lift (py_contains "efficientdet" params) ;;
  (if (b : bool) then
     ed_params <- lift (py_getitem params "efficientdet") ;;
     logger INFO (Text "Initialising EfficientDet constants") ;;
     exec_block ed_params efficientdet_body
   else ret tt).

(** The four sections that bind constants, with their blocks. *)
Definition sections : list (string * list stmt) :=
  [ ("data_prep", data_prep_body);
    ("train", train_body);
    ("inference", inference_body);
    ("efficientdet", efficientdet_body) ].

Definition all_stmts : list stmt := concat (map snd sections).
Definition all_names : list string := map stmt_name all_stmts.

End PipelineConfig.

(* ===================================================================== *)
(** * Libraries outside the repository                                      *)
(* ===================================================================== *)

Record DataFrame : Type := mkDataFrame {
  columns : list string;
  rows : list (list value)
}.

(** What the code calls but does not define: pathlib's joining, string
    formatting, parsing of text, the directory a file is created in, and
    the PeekingDuck nodes ("a unit exposing a run(input) -> output
    contract"), whose [run] may keep state and may raise. *)
Class Externals : Type := {
  path_join : string -> string -> string;     (* str(Path(a, b)) *)
  py_format : value -> string;                (* "{v}" inside an f-string *)
  int_of_str : string -> option Z;            (* int("...") *)
  pd_read_csv : file -> result DataFrame;     (* pandas' CSV parser *)
  writable : string -> bool;                  (* open(p, "w") succeeds *)
  os_listdir : gmap string file -> string -> result (list string);
  plt_subplots : nat -> result unit;          (* plt.subplots(rows, 2, ...) *)
  imshow : nat -> nat -> nat -> image -> result unit;
                                  (* ax[i][j].imshow(img), ax of that many rows *)
  node : Type;
  efficientdet_Node : value -> result node;        (* efficientdet.Node *)
  life3_efficientdet_Node : value -> result node;  (* life3_efficientdet.Node *)
  bbox_Node : value -> result node;                (* bbox.Node *)
  node_run : node -> value -> result value * node  (* node.run(inputs) *)
}.

(** A row of a DataFrame as [iterrows] yields it. *)
Definition Series : Type := list (string * value).

Definition iterrows (df : DataFrame) : list Series :=
  map (fun r => combine (columns df) r) (rows df).

Definition series_getitem (s : Series) (k : string) : result value :=
  match dict_get s k with
  | Some v => Ok v
  | None => Raise (KeyError k)
  end.

Definition NaN : value := VFloat S754_nan.

(** Column names in order of first appearance. *)
Definition first_seen (ks : list string) : list string :=
  fold_left (fun acc k => if existsb (String.eqb k) acc then acc else acc ++ [k])
            ks [].

(** [pd.DataFrame(records)] for a list of dicts. *)
Definition pd_DataFrame (records : list (list (string * value))) : DataFrame :=
  let cols := first_seen (concat (map dict_keys records)) in
  mkDataFrame cols
    (map (fun r => map (fun c => default NaN (dict_get r c)) cols) records).

(** The magnitude of a finite float, truncated towards zero. *)
Definition trunc_magnitude (m : positive) (e : Z) : Z :=
  if 0 <=? e then Z.pos m * 2 ^ e else Z.pos m / 2 ^ (- e).

(** Blue and red exchanged in every pixel. *)
Definition swap_channels (i : image) : image :=
  map (map (fun '(b, g, r) => (r, g, b))) i.

Section Builtins.
Context {E : Externals}.

(** [int(v)]. *)
Definition py_int (v : value) : result Z :=
  match v with
  | VInt z => Ok z
  | VBool b => Ok (if b then 1 else 0)
  | VFloat (S754_zero _) => Ok 0
  | VFloat (S754_infinity _) => Raise OverflowError
  | VFloat S754_nan => Raise (ValueError "cannot convert float NaN to integer")
  | VFloat (S754_finite s m e) =>
      Ok (if s then - trunc_magnitude m e else trunc_magnitude m e)
  | VStr s =>
      match int_of_str s with
      | Some z => Ok z
      | None => Raise (ValueError "invalid literal for int()")
      end
  | VNone | VPath _ | VList _ | VTuple _ | VDict _ | VImage _ => Raise TypeError
  end.

Definition fspath (v : value) : result string :=
  match v with
  | VStr s | VPath s => Ok s
  | _ => Raise TypeError
  end.

(** [Path(a, b)] and [PurePath(a, b)], as the path's text. *)
Definition Path (a b : value) : result string :=
  match fspath a with
  | Raise e => Raise e
  | Ok sa =>
      match fspath b with
      | Raise e => Raise e
      | Ok sb => Ok (path_join sa sb)
      end
  end.

(** [bool(v)], as an [if] tests it. *)
Definition py_truthy (v : value) : result bool :=
  match v with
  | VNone => Ok false
  | VBool b => Ok b
  | VInt z => Ok (negb (z =? 0))
  | VFloat (S754_zero _) => Ok false
  | VFloat _ => Ok true
  | VStr s => Ok (negb (String.eqb s EmptyString))
  | VPath _ => Ok true
  | VList l | VTuple l => Ok (negb (Nat.eqb (length l) 0))
  | VDict d => Ok (negb (Nat.eqb (length d) 0))
  | VImage img =>
      if Nat.eqb (length (concat img)) 0 then Ok false
      else Raise (ValueError "The truth value of an array is ambiguous")
  end.

(** [open(p, "w")]: the file is created or truncated. *)
Definition open_w (p : string) : M world unit :=
  fun w =>
    if writable p
    then (Ok tt, set_files (<[p := CsvFile None []]> (files w)) w)
    else (Raise (OSError p), w).

(** [csv.writer(f).writerow(row)] on the file opened at [p]. *)
Definition writerow (p : string) (row : list value) : M world unit :=
  fun w =>
    match files w !! p with
    | Some (CsvFile h rs) =>
        (Ok tt, set_files (<[p := CsvFile h (rs ++ [row])]> (files w)) w)
    | _ => (Raise (ValueError "I/O operation on closed file"), w)
    end.

(** [df.to_csv(path, encoding="utf-8", index=False)]: with [path=None]
    pandas returns the text and writes no file. *)
Definition to_csv (df : DataFrame) (path : value) : M world unit :=
  fun w =>
    match path with
    | VNone => (Ok tt, w)
    | VStr p | VPath p =>
        if writable p
        then (Ok tt, set_files (<[p := CsvFile (Some (columns df)) (rows df)]>
                                  (files w)) w)
        else (Raise (OSError p), w)
    | _ => (Raise (ValueError "Invalid file path or buffer object type"), w)
    end.

(** [pd.read_csv(path)]. *)
Definition read_csv (path : value) : M world DataFrame :=
  fun w =>
    match fspath path with
    | Raise e => (Raise e, w)
    | Ok p =>
        match files w !! p with
        | Some f => (pd_read_csv f, w)
        | None => (Raise (OSError p), w)
        end
    end.

Definition path_exists (p : string) : M world bool :=
  fun w => (Ok (bool_decide (is_Some (files w !! p))), w).

(** [cv2.imread(path)]: [None] when the file is not a readable image. *)
Definition cv2_imread (path : value) : M world (option image) :=
  fun w =>
    match path with
    | VStr p | VPath p =>
        (Ok (match files w !! p with
             | Some (ImageFile img) => Some img
             | _ => None
             end), w)
    | _ => (Raise TypeError, w)
    end.

(** [cv2.cvtColor(img, cv2.COLOR_BGR2RGB)]: [None] is not an image. *)
Definition cv2_cvtColor_BGR2RGB (img : option image) : result image :=
  match img with
  | Some i => Ok (swap_channels i)
  | None => Raise CvError
  end.

End Builtins.

(** [s.split('.')[0]]. *)
Fixpoint split_head (s : string) : string :=
  match s with
  | EmptyString => EmptyString
  | String c r => if Ascii.eqb c "."%char then EmptyString else String c (split_head r)
  end.

(* ===================================================================== *)
(** * preprocess_efficientdet.py: EfficientDetPipeline                     *)
(* ===================================================================== *)

Module EfficientDetPipeline.
Section WithExternals.
Context {E : Externals}.

(** Lines 34-49: the body of the loop over [annotations.iterrows()]. *)
Definition convert_row (annotation : Series) : M world (list value) :=
  raw <- pconst.getattr "RAW_DATA_PATH" ;;
  file_name <- lift (series_getitem annotation "file_name") ;;
  image_file_path <- lift (Path raw file_name) ;;
  class_name <- lift (series_getitem annotation "category_name") ;;
  v <- lift (series_getitem annotation "bbox_x_min") ;;
  x1 <- lift (py_int v) ;;
  v <- lift (series_getitem annotation "bbox_y_min") ;;
  y1 <- lift (py_int v) ;;
  v <- lift (series_getitem annotation "bbox_x_max") ;;
  x2 <- lift (py_int v) ;;
  v <- lift (series_getitem annotation "bbox_y_max") ;;
  y2 <- lift (py_int v) ;;
  ret [VPath image_file_path; VInt x1; VInt y1; VInt x2; VInt y2; class_name].

(** Lines 32-49: [data_value] grows by one row per annotation. *)
Fixpoint convert_rows (anns : list Series) (data_value : list (list value))
  : M world (list (list value)) :=
  match anns with
  | [] => ret data_value
  | annotation :: rest =>
      row <- convert_row annotation ;;
      convert_rows rest (data_value ++ [row])
  end.

(** Lines 54-55. *)
Fixpoint write_rows (p : string) (data_value : list (list value)) : M world unit :=
  match data_value with
  | [] => ret tt
  | data :: rest => writerow p data ;; write_rows p rest
  end.

(** [generate_annotations(self, logger, base_filename, annotations=None)]. *)
Definition generate_annotations (base_filename : string)
    (annotations : option DataFrame) : M world unit :=
  interim <- pconst.getattr "INTERIM_DATA_PATH" ;;
  combined <- pconst.getattr "COMBINED_ANNOTATIONS_FILENAME" ;;
  annot_filepath <- lift (Path interim combined) ;;
  loaded <-
    match annotations with
    | Some df => ret (Some df)
    | None =>
        present <- path_exists annot_filepath ;;
        if (present : bool) then
          df <- read_csv (VPath annot_filepath) ;;
          ret (Some df)
        else
          logger ERROR (Text ("Annotations file missing @ " +:+ annot_filepath
                              +:+ "! No annotations to generate.")) ;;
          ret None
    end ;;
  match loaded with
  | None => ret tt                                           (* return *)
  | Some df =>
      data_value <- convert_rows (iterrows df) [] ;;
      processed <- pconst.getattr "PROCESSED_DATA_PATH" ;;
      backbone <- pconst.getattr "ED_TRAIN_BACKBONE" ;;
      out <- lift (Path processed
                     (VStr (split_head base_filename +:+ "_efficientdet_b"
                            +:+ py_format backbone +:+ ".csv"))) ;;
      open_w out ;;
      write_rows out data_value
  end.

End WithExternals.
End EfficientDetPipeline.

(* ===================================================================== *)
(** * inference_pipeline.py: PeekingDuckPipeline                           *)
(* ===================================================================== *)

Definition INFERENCE_INPUT_PATH : string :=
  "/Users/kwanchet/Documents/aisg_100e/life3_biotech/consultancy_project/development/custom_node_model/life3/data/inference/class_1".

(** The loop of [get_image_list], lines 48-53.  Only regular files are in
    [files], so [exists() and is_file()] is a lookup. *)
Fixpoint get_image_list_loop {E : Externals} (names : list string)
    (image_list : list value) : M world (list value) :=
  match names with
  | [] => ret image_list
  | filename :: rest =>
      img_file <- lift (Path (VStr INFERENCE_INPUT_PATH) (VStr filename)) ;;
      present <- path_exists img_file ;;
      if (present : bool)
      then get_image_list_loop rest (image_list ++ [VPath img_file])
      else
        logger ERROR (Text ("Invalid image file path: " +:+ img_file)) ;;
        get_image_list_loop rest image_list
  end.

(** [get_image_list(logger)]. *)
Definition get_image_list {E : Externals} : M world (list value) :=
  fun w =>
    match os_listdir (files w) INFERENCE_INPUT_PATH with
    | Ok names => get_image_list_loop names [] w
    | Raise e => (Raise e, w)
    end.

Module PeekingDuckPipeline.
Section WithExternals.
Context {E : Externals}.

(** The attributes of a [PeekingDuckPipeline] object ([self.logger] writes
    to the world's log). *)
Record pipeline : Type := mkPipeline {
  model_node_type : value;
  model_config : value;
  draw_node_type : value;
  draw_config : value;
  data : value;
  model_node : option node;
  draw_node : option node
}.

Definition with_model_node (n : option node) (self : pipeline) : pipeline :=
  mkPipeline (model_node_type self) (model_config self) (draw_node_type self)
             (draw_config self) (data self) n (draw_node self).

Definition with_draw_node (n : option node) (self : pipeline) : pipeline :=
  mkPipeline (model_node_type self) (model_config self) (draw_node_type self)
             (draw_config self) (data self) (model_node self) n.

(** Methods run on the object and the world together. *)
Definition on_world {A} (c : M world A) : M (pipeline * world) A :=
  fun st => let '(r, w') := c (snd st) in (r, (fst st, w')).

Definition get_self : M (pipeline * world) pipeline :=
  fun st => (Ok (fst st), st).

Definition modify_self (f : pipeline -> pipeline) : M (pipeline * world) unit :=
  fun st => (Ok tt, (f (fst st), snd st)).

(** [set_model_node(self)], lines 91-105. *)
Definition set_model_node : M (pipeline * world) unit :=
  self <- get_self ;;
  (if is_str "effdet" (model_node_type self) then
     n <- lift (efficientdet_Node (model_config self)) ;;
     modify_self (with_model_node (Some n)) ;;
     on_world (logger INFO (Text "Instantiate Model Node."))
   else ret tt) ;;
  (* add custom node here *)
  self <- get_self ;;
  if is_str "life3_effdet" (model_node_type self) then
    n <- lift (life3_efficientdet_Node (model_config self)) ;;
    modify_self (with_model_node (Some n)) ;;
    on_world (logger INFO (Text "Instantiate Model Node."))
  else
    on_world (logger ERROR (Text "Unsupported model node type specified")) ;;
    raise (ValueError "Unsupported model node type specified!").

(** [set_draw_node(self)], lines 107-115. *)
Definition set_draw_node : M (pipeline * world) unit :=
  self <- get_self ;;
  if is_str "draw_bbox" (draw_node_type self) then
    n <- lift (bbox_Node (draw_config self)) ;;
    modify_self (with_draw_node (Some n))
  else
    on_world (logger ERROR (Text "Unsupported draw node type specified")) ;;
    raise (ValueError "Unsupported draw node type specified!").

(** [__init__], lines 67-89: the new object, unless a setter raises. *)
Definition __init__ (model_node_type model_config draw_node_type draw_config
                     data : value) : M world pipeline :=
  fun w =>
    let self := mkPipeline model_node_type model_config draw_node_type
                           draw_config data None None in
    let body : M (pipeline * world) unit :=
      b <- lift (py_truthy model_node_type) ;;
      (if (b : bool) then set_model_node else ret tt) ;;
      b <- lift (py_truthy draw_node_type) ;;
      if (b : bool) then set_draw_node else ret tt in
    match body (self, w) with
    | (Ok _, st) => (Ok (fst st), snd st)
    | (Raise e, st) => (Raise e, snd st)
    end.

(** [self.draw_node.run(inputs)]. *)
Definition draw_node_run (inputs : value) : M (pipeline * world) value :=
  fun st =>
    match draw_node (fst st) with
    | None => (Raise (AttributeError "run"), st)
    | Some n =>
        let '(r, n') := node_run n inputs in
        (r, (with_draw_node (Some n') (fst st), snd st))
    end.

(** [save_predict_output(self, output_df, output_path)]. *)
Definition save_predict_output (output_df : DataFrame) (output_path : value)
  : M (pipeline * world) unit :=
  on_world (to_csv output_df output_path).

(** [read_predict_output(self, output_path)]. *)
Definition read_predict_output (output_path : value)
  : M (pipeline * world) DataFrame :=
  on_world (read_csv output_path).

(** The loop of [visualise], lines 155-174, over the rows from the i-th
    on; [num_of_imgs] is the number of rows of the axes. *)
Fixpoint visualise_loop (num_of_imgs i : nat) (rs : list Series)
  : M (pipeline * world) unit :=
  match rs with
  | [] => ret tt
  | row :: rest =>
      path <- lift (series_getitem row "img_path") ;;
      image_orig <- on_world (cv2_imread path) ;;
      image_orig <- lift (cv2_cvtColor_BGR2RGB image_orig) ;;
      image_copy <- lift (cv2_cvtColor_BGR2RGB (Some image_orig)) ;;
      bboxes <- lift (series_getitem row "bboxes") ;;
      bbox_labels <- lift (series_getitem row "bbox_labels") ;;
      let bbox_input := VDict [("img", VImage image_orig); ("bboxes", bboxes);
                               ("bbox_labels", bbox_labels)] in
      draw_node_run bbox_input ;;
      lift (imshow num_of_imgs i 0 image_orig) ;;
      lift (imshow num_of_imgs i 1 image_copy) ;;
      visualise_loop num_of_imgs (S i) rest
  end.

(** [visualise(self, pred_outputs_df)]. *)
Definition visualise (pred_outputs_df : DataFrame) : M (pipeline * world) unit :=
  let num_of_imgs := length (rows pred_outputs_df) in
  lift (plt_subplots num_of_imgs) ;;
  visualise_loop num_of_imgs 0 (iterrows pred_outputs_df).

(** [self.model_node.run(inputs)]: the node may change; the call is
    recorded. *)
Definition model_node_run (inputs : value) : M (pipeline * world) value :=
  fun st =>
    match model_node (fst st) with
    | None => (Raise (AttributeError "run"), st)
    | Some n =>
        let '(r, n') := node_run n inputs in
        (r, (with_model_node (Some n') (fst st), add_node_call inputs (snd st)))
    end.

(** Lines 252-271, shared by [predict] and [predict_custom]: run the node
    on the image, append the record, rebuild the table, save it. *)
Definition infer_one (save_output_option output_path : value)
    (img : image) (path : value) (pred_outputs : list (list (string * value)))
  : M (pipeline * world) (list (list (string * value)) * DataFrame) :=
  let eff_det_input := VDict [("img", VImage img)] in
  eff_det_output <- model_node_run eff_det_input ;;
  bboxes <- lift (py_getitem eff_det_output "bboxes") ;;
  bbox_labels <- lift (py_getitem eff_det_output "bbox_labels") ;;
  let pred_output :=
    [("bboxes", bboxes); ("bbox_labels", bbox_labels); ("img_path", path)] in
  let pred_outputs := pred_outputs ++ [pred_output] in
  let pred_outputs_df := pd_DataFrame pred_outputs in
  b <- lift (py_truthy save_output_option) ;;
  (if (b : bool) then save_predict_output pred_outputs_df output_path
   else ret tt) ;;
  ret (pred_outputs, pred_outputs_df).

(** The loop of [predict_custom], lines 239-271.  [pred_outputs_df] is
    [None] until the first iteration binds the local variable. *)
Fixpoint predict_custom_loop (save_output_option output_path : value)
    (image_list : list value) (pred_outputs : list (list (string * value)))
    (pred_outputs_df : option DataFrame)
  : M (pipeline * world) (option DataFrame) :=
  match image_list with
  | [] => ret pred_outputs_df
  | path :: rest =>
      image_orig <- on_world (cv2_imread path) ;;
      image_orig <- lift (cv2_cvtColor_BGR2RGB image_orig) ;;
      r <- infer_one save_output_option output_path image_orig path
                      pred_outputs ;;
      predict_custom_loop save_output_option output_path rest
                          (fst r) (Some (snd r))
  end.

(** [predict_custom(self, image_list, save_output_option=False,
    output_path=None)]. *)
Definition predict_custom (image_list : list value)
    (save_output_option output_path : value) : M (pipeline * world) DataFrame :=
  r <- predict_custom_loop save_output_option output_path image_list [] None ;;
  match r with
  | Some pred_outputs_df => ret pred_outputs_df
  | None => raise (UnboundLocalError "pred_outputs_df")
  end.

(** The loop of [predict], lines 192-222.  An element of the dataset is
    given by the image [element[0].numpy().astype("uint8")[0]] and its
    file path; [cv2.COLOR_RGB2BGR] is the same exchange of channels. *)
Fixpoint predict_loop (save_output_option output_path : value)
    (dataset : list (image * value)) (pred_outputs : list (list (string * value)))
    (pred_outputs_df : option DataFrame)
  : M (pipeline * world) (option DataFrame) :=
  match dataset with
  | [] => ret pred_outputs_df
  | (element, path) :: rest =>
      image <- lift (cv2_cvtColor_BGR2RGB (Some element)) ;;
      r <- infer_one save_output_option output_path image path pred_outputs ;;
      predict_loop save_output_option output_path rest (fst r) (Some (snd r))
  end.

(** [predict(self, dataset, save_output_option=False, output_path=None)]. *)
Definition predict (dataset : list (image * value))
    (save_output_option output_path : value) : M (pipeline * world) DataFrame :=
  r <- predict_loop save_output_option output_path dataset [] None ;;
  match r with
  | Some pred_outputs_df => ret pred_outputs_df
  | None => raise (UnboundLocalError "pred_outputs_df")
  end.

End WithExternals.
End PeekingDuckPipeline.

(* ===================================================================== *)
(** * Calls into the repository after start-up                              *)
(* ===================================================================== *)

(** The functions and methods of [preprocess_efficientdet.py] and
    [inference_pipeline.py]. *)
Inductive call {E : Externals} : Type :=
| generate_annotations_call (base_filename : string)
                            (annotations : option DataFrame)
| new_pipeline_call (model_node_type model_config draw_node_type
                     draw_config data : value)
| set_model_node_call
| set_draw_node_call
| save_predict_output_call (output_df : DataFrame) (output_path : value)
| read_predict_output_call (output_path : value)
| get_image_list_call
| visualise_call (pred_outputs_df : DataFrame)
| predict_call (dataset : list (image * value))
               (save_output_option output_path : value)
| predict_custom_call (image_list : list value)
                      (save_output_option output_path : value).

(** The state a call leaves behind, whether it returned or raised. *)
Definition run_call {E : Externals} (c : call)
    (st : PeekingDuckPipeline.pipeline * world)
  : PeekingDuckPipeline.pipeline * world :=
  match c with
  | generate_annotations_call base annotations =>
      (fst st, snd (EfficientDetPipeline.generate_annotations base annotations
                      (snd st)))
  | new_pipeline_call t c d dc x =>
      match PeekingDuckPipeline.__init__ t c d dc x (snd st) with
      | (Ok self, w) => (self, w)
      | (Raise _, w) => (fst st, w)
      end
  | set_model_node_call => snd (PeekingDuckPipeline.set_model_node st)
  | set_draw_node_call => snd (PeekingDuckPipeline.set_draw_node st)
  | save_predict_output_call df p =>
      snd (PeekingDuckPipeline.save_predict_output df p st)
  | read_predict_output_call p =>
      snd (PeekingDuckPipeline.read_predict_output p st)
  | get_image_list_call => (fst st, snd (get_image_list (snd st)))
  | visualise_call df => snd (PeekingDuckPipeline.visualise df st)
  | predict_call ds o p => snd (PeekingDuckPipeline.predict ds o p st)
  | predict_custom_call l o p =>
      snd (PeekingDuckPipeline.predict_custom l o p st)
  end.

(* ===================================================================== *)
(** * A concrete environment for examples                                   *)
(* ===================================================================== *)

(** A node with a call counter as its state: the n-th call reports one box
    whose first corner is (n, n). *)
Definition demo_node_run (n : Z) (inputs : value) : result value * Z :=
  (Ok (VDict [("img", default VNone (dict_get
                                      match inputs with VDict d => d | _ => [] end
                                      "img"));
              ("bboxes", VList [VList [VInt n; VInt n; VInt 9; VInt 9]]);
              ("bbox_labels", VList [VStr "cell"])]),
   n + 1).

Definition demo_externals : Externals := {|
  path_join a b := a +:+ "/" +:+ b;
  py_format v := match v with VStr s => s | _ => "0" end;
  int_of_str _ := None;
  pd_read_csv f :=
    match f with
    | CsvFile (Some h) rs => Ok (mkDataFrame h rs)
    | _ => Raise (ExternalError "pandas.errors.ParserError")
    end;
  writable _ := true;
  os_listdir _ _ := Ok ["a.jpg"; "b.jpg"];
  plt_subplots n := if Nat.eqb n 0 then Raise (ValueError "Number of rows must be a positive integer") else Ok tt;
  imshow rows _ _ _ := if Nat.eqb rows 1 then Raise TypeError else Ok tt;
  node := Z;
  efficientdet_Node _ := Ok 0;
  life3_efficientdet_Node _ := Ok 0;
  bbox_Node _ := Ok 0;
  node_run := demo_node_run
|}.

(** A configuration with an [efficientdet] section and a section the
    loader does not know. *)
Definition demo_config : list (string * value) :=
  [ ("efficientdet", VDict [("train_backbone", VInt 0);
                            ("image_sizes", VList [VInt 512; VInt 640])]);
    ("logging", VDict [("level", VStr "INFO")]) ].

Definition demo_consts : gmap string value :=
  list_to_map [("INTERIM_DATA_PATH", VStr "interim");
               ("COMBINED_ANNOTATIONS_FILENAME", VStr "annotations_all.csv");
               ("RAW_DATA_PATH", VStr "raw");
               ("PROCESSED_DATA_PATH", VStr "processed");
               ("ED_TRAIN_BACKBONE", VInt 0)].

Definition demo_world : world :=
  World demo_consts []
        (list_to_map [("a.jpg", ImageFile [[(1, 2, 3)]]);
                      ("b.jpg", ImageFile [[(4, 5, 6)]])])
        [] [].

Definition annotation_columns : list string :=
  ["file_name"; "category_name"; "bbox_x_min"; "bbox_y_min"; "bbox_x_max";
   "bbox_y_max"].

(** Two annotations; the second has its corners the wrong way round and
    float coordinates (7.5 and 2.25). *)
Definition demo_annotations : DataFrame :=
  mkDataFrame annotation_columns
    [ [VStr "a.jpg"; VStr "cell"; VInt 1; VInt 2; VInt 30; VInt 40];
      [VStr "b.jpg"; VStr "debris"; VFloat (S754_finite false 15 (-1));
       VInt 8; VFloat (S754_finite false 9 (-2)); VInt 3] ].

Definition demo_pipeline : PeekingDuckPipeline.pipeline (E := demo_externals) :=
  PeekingDuckPipeline.mkPipeline (E := demo_externals)
    (VStr "life3_effdet") (VDict []) VNone VNone VNone (Some 0) None.

(* ===================================================================== *)
(** * Notions used in the statements                                        *)
(* ===================================================================== *)

(** [c] leaves the [π] part of the state as it was, whether it returns or
    raises. *)
Definition keeps {S X A : Type} (π : S -> X) (c : M S A) : Prop :=
  forall s, π (snd (c s)) = π s.

(** The registry as a call sees it: the bindings, and the assignments
    executed so far. *)
Definition registry (w : world) : gmap string value * list string :=
  (consts w, const_writes w).

Module ConfigSpec.
Import PipelineConfig.

(** The value a statement binds its constant to when it runs on [section],
    [None] when it binds nothing (an absent optional key) or raises before
    the assignment. *)
Definition bound_value (section : value) (s : stmt) : option value :=
  match s with
  | Assign _ key =>
      match py_getitem section key with Ok v => Some v | Raise _ => None end
  | AssignIfPresent _ key =>
      match py_contains key section with
      | Ok true =>
          match py_getitem section key with Ok v => Some v | Raise _ => None end
      | _ => None
      end
  | AssignOrNone _ key =>
      match py_contains key section with
      | Ok true =>
          match py_getitem section key with Ok v => Some v | Raise _ => None end
      | Ok false => Some VNone
      | Raise _ => None
      end
  | AssignTupleIfPresent _ key =>
      match py_contains key section with
      | Ok true =>
          match py_getitem section key with
          | Ok v => match py_tuple v with Ok t => Some t | Raise _ => None end
          | Raise _ => None
          end
      | _ => None
      end
  end.

(** A statement with no guard: it binds its constant or the block raises. *)
Definition unguarded (s : stmt) : bool :=
  match s with
  | Assign _ _ | AssignOrNone _ _ => true
  | AssignIfPresent _ _ | AssignTupleIfPresent _ _ => false
  end.

(** The statement's key is in the section: the guard of a guarded
    statement holds. *)
Definition key_present (section : value) (s : stmt) : bool :=
  match py_contains (stmt_key s) section with
  | Ok true => true
  | _ => false
  end.

(** Statements paired with the section each one reads. *)
Definition pool : Type := list (value * stmt).

Definition pool_names (L : pool) : list string :=
  map (fun p => stmt_name (snd p)) L.

(** What running (part of) [__init__] can do to the world, when the
    statements it may execute are those of [L]: [ok] tells whether it
    returned. *)
Record effect (L : pool) (w : world) (ok : bool) (w' : world) : Prop := {
  eff_files : files w' = files w;
  eff_calls : node_calls w' = node_calls w;
  eff_writes : exists t, const_writes w' = const_writes w ++ t /\
                         t `sublist_of` pool_names L;
  eff_mono : forall k v, consts w !! k = Some v -> consts w' !! k = Some v;
  eff_prov : forall k v, consts w !! k = None -> consts w' !! k = Some v ->
               exists sec s, (sec, s) ∈ L /\ stmt_name s = k /\
                             bound_value sec s = Some v;
  eff_done : ok = true -> forall sec s, (sec, s) ∈ L ->
               (forall v, bound_value sec s = Some v ->
                          consts w' !! stmt_name s = Some v) /\
               (unguarded s = true \/ key_present sec s = true ->
                is_Some (bound_value sec s))
}.

Definition has_effect {A} (c : M world A) (L : pool) : Prop :=
  forall w, effect L w (is_ok (fst (c w))) (snd (c w)).

(** The statements of a section's block, if [params] has the section. *)
Definition block_pool (params : value) (S : string) (body : list stmt) : pool :=
  match py_contains S params with
  | Ok true =>
      match py_getitem params S with
      | Ok sec => map (pair sec) body
      | Raise _ => []
      end
  | _ => []
  end.

Definition active (params : value) : pool :=
  concat (map (fun sb => block_pool params (fst sb) (snd sb)) sections).

(** Every statement of [__init__] with the key of its section. *)
Definition flat : list (string * stmt) :=
  concat (map (fun sb => map (pair (fst sb)) (snd sb)) sections).

(** The reading of "constants belonging to a section are assigned exactly
    when that section's key is present in params", for the run of
    [__init__] on the dict [d] in a new process. *)
Definition assigned_iff_section_present (d : list (string * value)) : Prop :=
  forall S body s, (S, body) ∈ sections -> s ∈ body ->
    (is_Some (consts (snd (__init__ (VDict d) fresh_world)) !! stmt_name s)
     <-> is_Some (dict_get d S)).

End ConfigSpec.

(** Methods of the pipeline object: the registry of the world they run in. *)
Definition registry_of {E : Externals}
    (st : PeekingDuckPipeline.pipeline * world) : gmap string value * list string :=
  registry (snd st).

Module AnnotationSpec.
Section WithExternals.
Context {E : Externals}.

Definition to_option {A} (r : result A) : option A :=
  match r with Ok a => Some a | Raise _ => None end.

(** The CSV row for one annotation, in the format
    path/to/image.jpg,x1,y1,x2,y2,class_name:
    [Path(RAW_DATA_PATH, file_name), int(bbox_x_min), int(bbox_y_min),
     int(bbox_x_max), int(bbox_y_max), category_name];
    [None] when a column is missing or a conversion is not defined. *)
Definition annotation_row (raw : value) (annotation : Series)
  : option (list value) :=
  file_name ← dict_get annotation "file_name";
  image_file_path ← to_option (Path raw file_name);
  category_name ← dict_get annotation "category_name";
  x1 ← dict_get annotation "bbox_x_min" ≫= (fun v => to_option (py_int v));
  y1 ← dict_get annotation "bbox_y_min" ≫= (fun v => to_option (py_int v));
  x2 ← dict_get annotation "bbox_x_max" ≫= (fun v => to_option (py_int v));
  y2 ← dict_get annotation "bbox_y_max" ≫= (fun v => to_option (py_int v));
  Some [VPath image_file_path; VInt x1; VInt y1; VInt x2; VInt y2;
        category_name].

(** The name of the output file:
    f"{base_filename.split('.')[0]}_efficientdet_b{const.ED_TRAIN_BACKBONE}.csv". *)
Definition output_name (base_filename : string) (backbone : value) : value :=
  VStr (split_head base_filename +:+ "_efficientdet_b" +:+ py_format backbone
        +:+ ".csv").

(** The constants [generate_annotations] reads are bound in [w], and the
    paths built from them are [annot_filepath], the file of combined
    annotations, and [out], the CSV file to write. *)
Record configured (w : world) (base_filename : string)
    (raw : value) (annot_filepath out : string) : Prop := {
  cfg_paths : exists interim combined,
      consts w !! "INTERIM_DATA_PATH" = Some interim /\
      consts w !! "COMBINED_ANNOTATIONS_FILENAME" = Some combined /\
      Path interim combined = Ok annot_filepath;
  cfg_raw : consts w !! "RAW_DATA_PATH" = Some raw;
  cfg_out : exists processed backbone,
      consts w !! "PROCESSED_DATA_PATH" = Some processed /\
      consts w !! "ED_TRAIN_BACKBONE" = Some backbone /\
      Path processed (output_name base_filename backbone) = Ok out
}.

End WithExternals.
End AnnotationSpec.

Definition demo_csv_rows : list (list value) :=
  [ [VPath "raw/a.jpg"; VInt 1; VInt 2; VInt 30; VInt 40; VStr "cell"];
    [VPath "raw/b.jpg"; VInt 7; VInt 8; VInt 2; VInt 3; VStr "debris"] ].

Module InferenceSpec.
Section WithExternals.
Context {E : Externals}.

(** One iteration of the loop of [predict_custom] that goes well: the path
    taken from [image_list], the image read from it, what the node's [run]
    returned, and the two fields read out of that. *)
Record step : Type := mkStep {
  st_path : value;
  st_img : image;
  st_out : value;
  st_bboxes : value;
  st_labels : value
}.

(** The dict passed to [run]: 'img' mapped to the loaded image. *)
Definition model_input (s : step) : value :=
  VDict [("img", VImage (swap_channels (st_img s)))].

(** The record appended to [pred_outputs], and its row in the table. *)
Definition record_of (s : step) : list (string * value) :=
  [("bboxes", st_bboxes s); ("bbox_labels", st_labels s); ("img_path", st_path s)].

Definition row_of (s : step) : list value :=
  [st_bboxes s; st_labels s; st_path s].

Definition table_columns : list string := ["bboxes"; "bbox_labels"; "img_path"].

Definition table_of (steps : list step) : DataFrame :=
  mkDataFrame table_columns (map row_of steps).

(** The image file that [cv2.imread] finds at a path. *)
Definition load_image (fs : gmap string file) (path : value) : option image :=
  match path with
  | VStr p | VPath p =>
      match fs !! p with Some (ImageFile img) => Some img | _ => None end
  | _ => None
  end.

(** Running the node on the inputs one after the other, from state [n]:
    the outputs and the last state, if no call raises. *)
Fixpoint node_outputs (n : node) (inputs : list value)
  : option (list value * node) :=
  match inputs with
  | [] => Some ([], n)
  | i :: rest =>
      match node_run n i with
      | (Ok o, n') =>
          match node_outputs n' rest with
          | Some (os, n'') => Some (o :: os, n'')
          | None => None
          end
      | (Raise _, _) => None
      end
  end.

(** Every path holds its image and every output has the two fields. *)
Definition steps_ok (fs : gmap string file) (steps : list step) : Prop :=
  Forall (fun s => load_image fs (st_path s) = Some (st_img s) /\
                   py_getitem (st_out s) "bboxes" = Ok (st_bboxes s) /\
                   py_getitem (st_out s) "bbox_labels" = Ok (st_labels s))
         steps.

(** When the table is to be saved, [output_path] names a file [p] that can
    be written and is none of the images. *)
Definition save_ok (b : bool) (output_path : value) (p : string)
    (steps : list step) : Prop :=
  b = true ->
  fspath output_path = Ok p /\ writable p = true /\
  Forall (fun s => fspath (st_path s) <> Ok p) steps.

End WithExternals.
End InferenceSpec.

Module InferenceRun.
Section WithExternals.
Context {E : Externals}.
Import InferenceSpec.

Definition csv_of (df : DataFrame) : file :=
  CsvFile (Some (columns df)) (rows df).

(** The world after the loop went through [steps], starting with the
    records [acc]: one recorded call per step, and the last table saved at
    [p] when [b] holds. *)
Definition after_run (b : bool) (p : string) (acc : list (list (string * value)))
    (steps : list step) (w : world) : world :=
  let w1 := World (consts w) (const_writes w) (files w) (log w)
                  (node_calls w ++ map model_input steps) in
  match steps with
  | [] => w1
  | _ :: _ =>
      if b
      then set_files (<[p := csv_of (pd_DataFrame (acc ++ map record_of steps))]>
                        (files w)) w1
      else w1
  end.

End WithExternals.
End InferenceRun.

(** The two iterations of [predict_custom] on a.jpg and b.jpg in
    [demo_world], with the demo node starting at 0. *)
Definition demo_output (n : Z) (img : image) : value :=
  VDict [("img", VImage img);
         ("bboxes", VList [VList [VInt n; VInt n; VInt 9; VInt 9]]);
         ("bbox_labels", VList [VStr "cell"])].

Definition demo_steps : list (InferenceSpec.step) :=
  [ InferenceSpec.mkStep (VStr "a.jpg") [[(1, 2, 3)]]
      (demo_output 0 [[(3, 2, 1)]])
      (VList [VList [VInt 0; VInt 0; VInt 9; VInt 9]]) (VList [VStr "cell"]);
    InferenceSpec.mkStep (VStr "b.jpg") [[(4, 5, 6)]]
      (demo_output 1 [[(6, 5, 4)]])
      (VList [VList [VInt 1; VInt 1; VInt 9; VInt 9]]) (VList [VStr "cell"]) ].

(* ===================================================================== *)
(** * Further notions                                                       *)
(* ===================================================================== *)

(** A computation that returns has bound every constant of [L] that its
    statements bind on a name that was free before. *)
Definition binds_fresh {A} (c : M world A) (L : ConfigSpec.pool) : Prop :=
  forall w, is_ok (fst (c w)) = true ->
    forall sec s, (sec, s) ∈ L -> is_Some (ConfigSpec.bound_value sec s) ->
      consts w !! PipelineConfig.stmt_name s = None.

(** [demo_world] with the combined annotations on disk. *)
Definition demo_world_with_annotations : world :=
  set_files (<["interim/annotations_all.csv"
               := CsvFile (Some annotation_columns) (rows demo_annotations)]>
               (files demo_world))
            demo_world.

(** A configuration with the entries the annotation converter needs. *)
Definition demo_data_prep : list (string * value) :=
  map (fun s => (PipelineConfig.stmt_key s,
                 match PipelineConfig.stmt_key s with
                 | "processed_data_path" => VStr "processed"
                 | "interim_data_path" => VStr "interim"
                 | "raw_data_path" => VStr "raw"
                 | "combined_annotations_filename" => VStr "annotations_all.csv"
                 | _ => VNone
                 end))
      PipelineConfig.data_prep_body.

Definition demo_full_config : list (string * value) :=
  [ ("data_prep", VDict demo_data_prep);
    ("efficientdet", VDict [("train_backbone", VInt 0)]) ].

Definition demo_config_without_backbone : list (string * value) :=
  [ ("data_prep", VDict demo_data_prep) ].

(** What [visualise] must leave alone: the model node and the world. *)
Definition beside_draw {E : Externals}
    (st : PeekingDuckPipeline.pipeline * world) : option node * world :=
  (PeekingDuckPipeline.model_node (fst st), snd st).

(** A world whose inference directory holds a.jpg but not b.jpg (the demo
    listing names both). *)
Definition demo_inference_world : world :=
  set_files {[ INFERENCE_INPUT_PATH +:+ "/a.jpg" := ImageFile [[(1, 2, 3)]] ]}
            fresh_world.

Definition demo_table : DataFrame :=
  mkDataFrame ["bboxes"; "bbox_labels"; "img_path"]
    [[VList [VList [VInt 0; VInt 0; VInt 9; VInt 9]]; VList [VStr "cell"];
      VStr "a.jpg"]].


Definition demo_bare_pipeline : PeekingDuckPipeline.pipeline (E := demo_externals) :=
  PeekingDuckPipeline.mkPipeline (E := demo_externals)
    (VStr "yolo") VNone (VStr "draw_poses") VNone VNone None None.

(** What an inference call must leave alone: the draw node, the log and
    the constants. *)
Definition beside_model {E : Externals}
    (st : PeekingDuckPipeline.pipeline * world)
  : option node * list (level * message) * gmap string value :=
  (PeekingDuckPipeline.draw_node (fst st), log (snd st), consts (snd st)).

(** [demo_annotations] with its columns in another order and one more
    column. *)
Definition demo_annotations_wide : DataFrame :=
  mkDataFrame ["id"; "bbox_y_max"; "bbox_x_max"; "bbox_y_min"; "bbox_x_min";
               "category_name"; "file_name"]
    [ [VInt 0; VInt 40; VInt 30; VInt 2; VInt 1; VStr "cell"; VStr "a.jpg"];
      [VInt 1; VInt 3; VFloat (S754_finite false 9 (-2)); VInt 8;
       VFloat (S754_finite false 15 (-1)); VStr "debris"; VStr "b.jpg"] ].

(* ===================================================================== *)
(** * Reasoning about computations                                          *)
(* ===================================================================== *)

Section Keeps.
Context {S X : Type} (π : S -> X).

Lemma keeps_ret {A} (a : A) : keeps π (ret a).
Proof. intros s; reflexivity. Qed.

Lemma keeps_raise {A} (e : exn) : keeps π (raise (A := A) e).
Proof. intros s; reflexivity. Qed.

Lemma keeps_lift {A} (r : result A) : keeps π (lift r).
Proof. intros s; reflexivity. Qed.

Lemma keeps_bind {A B} (c : M S A) (k : A -> M S B) :
  keeps π c -> (forall a, keeps π (k a)) -> keeps π (bind c k).
Proof.
  intros Hc Hk s. unfold bind.
  specialize (Hc s). destruct (c s) as [[a | e] s1]; simpl in *.
  - rewrite Hk. exact Hc.
  - exact Hc.
Qed.

Lemma keeps_if {A} (b : bool) (c1 c2 : M S A) :
  keeps π c1 -> keeps π c2 -> keeps π (if b then c1 else c2).
Proof. destruct b; auto. Qed.

End Keeps.

(** Membership in a list that is written out. *)
Ltac in_list :=
  apply list_elem_of_In; simpl; repeat (first [left; reflexivity | right]).

Module ConfigFacts.
Import PipelineConfig ConfigSpec.

Lemma effect_refl L w ok : (ok = true -> L = []) -> effect L w ok w.
Proof.
  intros HL. split; auto.
  - exists []. split; [by rewrite app_nil_r | apply sublist_nil_l].
  - intros k v H1 H2. congruence.
  - intros Hok sec s Hin. rewrite (HL Hok) in Hin. by apply elem_of_nil in Hin.
Qed.

Lemma has_effect_ret {A} (a : A) : has_effect (ret a) [].
Proof. intros w. simpl. by apply effect_refl. Qed.

Lemma has_effect_lift {A} (r : result A) : has_effect (lift r) [].
Proof. intros w. simpl. by apply effect_refl. Qed.

Lemma has_effect_logger l m : has_effect (logger l m) [].
Proof.
  intros w. simpl. split; simpl; auto.
  - exists []. split; [by rewrite app_nil_r | apply sublist_nil_l].
  - intros k v H1 H2. congruence.
  - intros _ sec s Hin. by apply elem_of_nil in Hin.
Qed.

Lemma pool_names_app L1 L2 :
  pool_names (L1 ++ L2) = pool_names L1 ++ pool_names L2.
Proof. unfold pool_names. apply map_app. Qed.

Lemma has_effect_bind {A B} (c : M world A) (k : A -> M world B) L1 L2 :
  has_effect c L1 -> (forall a, has_effect (k a) L2) ->
  has_effect (bind c k) (L1 ++ L2).
Proof.
  intros Hc Hk w. unfold bind. specialize (Hc w).
  destruct (c w) as [[a | e] w1]; simpl in *.
  - specialize (Hk a w1). destruct Hc as [F1 C1 [t1 [W1 S1]] M1 P1 D1].
    destruct Hk as [F2 C2 [t2 [W2 S2]] M2 P2 D2].
    split.
    + congruence.
    + congruence.
    + exists (t1 ++ t2). split.
      * rewrite W2, W1. by rewrite app_assoc.
      * rewrite pool_names_app. by apply sublist_app.
    + auto.
    + intros n v Hn Hv. destruct (consts w1 !! n) as [v1 |] eqn:E1.
      * pose proof (M2 _ _ E1) as E2. rewrite Hv in E2. inversion E2; subst v1.
        destruct (P1 _ _ Hn E1) as (sec & s & Hin & Hs & Hb).
        exists sec, s. split; [apply elem_of_app; by left | done].
      * destruct (P2 _ _ E1 Hv) as (sec & s & Hin & Hs & Hb).
        exists sec, s. split; [apply elem_of_app; by right | done].
    + intros Hok sec s Hin. apply elem_of_app in Hin as [Hin | Hin].
      * destruct (D1 eq_refl _ _ Hin) as [Hv Hu]. split; [| done].
        intros v Hb. apply M2. by apply Hv.
      * by apply D2.
  - destruct Hc as [F1 C1 [t1 [W1 S1]] M1 P1 D1]. split; auto.
    + exists t1. split; [done |]. rewrite pool_names_app.
      by apply sublist_inserts_r.
    + intros n v Hn Hv. destruct (P1 _ _ Hn Hv) as (sec & s & Hin & Hs & Hb).
      exists sec, s. split; [apply elem_of_app; by left | done].
    + discriminate.
Qed.

Lemma has_effect_seq {A B} (c : M world A) (k : A -> M world B) L :
  has_effect c [] -> (forall a, has_effect (k a) L) -> has_effect (bind c k) L.
Proof. intros Hc Hk. by apply (has_effect_bind c k [] L). Qed.

Lemma has_effect_lift_bind {A B} (r : result A) (k : A -> M world B) L :
  (forall a, r = Ok a -> has_effect (k a) L) -> has_effect (bind (lift r) k) L.
Proof.
  intros Hk w. unfold bind, lift. destruct r as [a | e].
  - by apply Hk.
  - simpl. by apply effect_refl.
Qed.


Lemma effect_fail L w : effect L w false w.
Proof. by apply effect_refl. Qed.

Lemma effect_skip sec s w :
  bound_value sec s = None -> unguarded s = false ->
  key_present sec s = false ->
  effect [(sec, s)] w true w.
Proof.
  intros Hb Hu Hp. split; auto.
  - exists []. split; [by rewrite app_nil_r | apply sublist_nil_l].
  - intros k v H1 H2. congruence.
  - intros _ sec' s' Hin. apply list_elem_of_singleton in Hin.
    inversion Hin; subst. rewrite Hb, Hu, Hp.
    split; [intros v Hv; discriminate | intros [? | ?]; discriminate].
Qed.

Lemma setattr_effect sec s v w :
  bound_value sec s = Some v ->
  effect [(sec, s)] w (is_ok (fst (pconst.setattr (stmt_name s) v w)))
         (snd (pconst.setattr (stmt_name s) v w)).
Proof.
  intros Hb. unfold pconst.setattr.
  destruct (consts w !! stmt_name s) as [old |] eqn:E; simpl.
  - split; simpl; auto.
    + exists [stmt_name s]. split; [done | simpl; reflexivity].
    + intros k x H1 H2. congruence.
    + discriminate.
  - split; simpl; auto.
    + exists [stmt_name s]. split; [done | simpl; reflexivity].
    + intros k x Hk. rewrite lookup_insert_ne; [done | congruence].
    + intros k x Hk Hx. exists sec, s.
      split; [by apply list_elem_of_singleton |].
      destruct (decide (k = stmt_name s)) as [-> | Hne].
      * rewrite lookup_insert_eq in Hx. split; congruence.
      * rewrite lookup_insert_ne in Hx by done. congruence.
    + intros _ sec' s' Hin. apply list_elem_of_singleton in Hin.
      inversion Hin; subst. split.
      * intros x Hx. rewrite lookup_insert_eq. congruence.
      * intros _. rewrite Hb. by eexists.
Qed.

Lemma exec_stmt_effect sec s : has_effect (exec_stmt sec s) [(sec, s)].
Proof.
  intros w.
  destruct s as [n k | n k | n k | n k]; unfold exec_stmt, bind, lift.
  - destruct (py_getitem sec k) as [v | e] eqn:G; simpl.
    + apply (setattr_effect sec (Assign n k)). simpl. by rewrite G.
    + apply effect_fail.
  - destruct (py_contains k sec) as [[|] | e] eqn:C; simpl.
    + destruct (py_getitem sec k) as [v | e] eqn:G; simpl.
      * apply (setattr_effect sec (AssignIfPresent n k)). simpl. by rewrite C, G.
      * apply effect_fail.
    + apply effect_skip;
        [simpl; by rewrite C | done | unfold key_present; simpl; by rewrite C].
    + apply effect_fail.
  - destruct (py_contains k sec) as [[|] | e] eqn:C; simpl.
    + destruct (py_getitem sec k) as [v | e] eqn:G; simpl.
      * apply (setattr_effect sec (AssignOrNone n k)). simpl. by rewrite C, G.
      * apply effect_fail.
    + apply (setattr_effect sec (AssignOrNone n k)). simpl. by rewrite C.
    + apply effect_fail.
  - destruct (py_contains k sec) as [[|] | e] eqn:C; simpl.
    + destruct (py_getitem sec k) as [v | e] eqn:G; simpl.
      * destruct (py_tuple v) as [t | e] eqn:T; simpl.
        -- apply (setattr_effect sec (AssignTupleIfPresent n k)). simpl.
           by rewrite C, G, T.
        -- apply effect_fail.
      * apply effect_fail.
    + apply effect_skip;
        [simpl; by rewrite C | done | unfold key_present; simpl; by rewrite C].
    + apply effect_fail.
Qed.

Lemma exec_block_effect sec body :
  has_effect (exec_block sec body) (map (pair sec) body).
Proof.
  induction body as [| s rest IH]; simpl.
  - apply has_effect_ret.
  - apply (has_effect_bind _ _ [(sec, s)]).
    + apply exec_stmt_effect.
    + intros _. apply IH.
Qed.

(** A section's [if] with its block, whatever is logged around the read of
    the section. *)
Ltac section_effect Hb :=
  unfold block_pool; rewrite Hb;
  match goal with |- has_effect (if ?b then _ else _) _ => destruct b end;
  [| apply has_effect_ret];
  repeat first
    [ apply has_effect_lift_bind; let sec := fresh "sec" in
      let Hsec := fresh "Hsec" in intros sec Hsec; rewrite Hsec
    | apply has_effect_seq; [apply has_effect_logger | intros _]
    | apply exec_block_effect ].

Lemma init_effect params : has_effect (__init__ params) (active params).
Proof.
  unfold __init__, active, sections. simpl.
  apply has_effect_seq; [apply has_effect_logger | intros _].
  apply has_effect_lift_bind; intros b1 Hb1.
  apply has_effect_bind; [section_effect Hb1 | intros _].
  apply has_effect_lift_bind; intros b2 Hb2.
  apply has_effect_bind; [section_effect Hb2 | intros _].
  apply has_effect_lift_bind; intros b3 Hb3.
  apply has_effect_seq.
  { destruct b3.
    - apply has_effect_lift_bind; intros; apply has_effect_ret.
    - apply has_effect_ret. }
  intros _.
  apply has_effect_lift_bind; intros b4 Hb4.
  apply has_effect_bind; [section_effect Hb4 | intros _].
  rewrite app_nil_r.
  apply has_effect_lift_bind; intros b5 Hb5.
  section_effect Hb5.
Qed.


(** ** The names of the constants *)

Lemma all_names_NoDup : NoDup all_names.
Proof. apply (bool_decide_unpack _). vm_compute. reflexivity. Qed.

Lemma flat_names : map (fun p => stmt_name (snd p)) flat = all_names.
Proof. reflexivity. Qed.

Lemma elem_of_concat {A} (x : A) (ls : list (list A)) :
  x ∈ concat ls <-> exists l, x ∈ l /\ l ∈ ls.
Proof.
  rewrite list_elem_of_In, in_concat. split.
  - intros (l & Hl & Hx). exists l. by rewrite !list_elem_of_In.
  - intros (l & Hx & Hl). exists l. by rewrite <- !list_elem_of_In.
Qed.

Lemma elem_of_flat S s :
  (S, s) ∈ flat <-> exists body, (S, body) ∈ sections /\ s ∈ body.
Proof.
  unfold flat. rewrite elem_of_concat. split.
  - intros (l & Hin & Hl). apply list_elem_of_fmap in Hl as ([S' body] & -> & Hsb).
    simpl in Hin. apply list_elem_of_fmap in Hin as (s' & Heq & Hs').
    inversion Heq; subst. by exists body.
  - intros (body & Hsb & Hs). exists (map (pair S) body). split.
    + apply list_elem_of_fmap. by exists s.
    + apply list_elem_of_fmap. by exists (S, body).
Qed.

Lemma NoDup_fmap_eq {A B} (f : A -> B) (l : list A) x y :
  NoDup (map f l) -> x ∈ l -> y ∈ l -> f x = f y -> x = y.
Proof.
  induction l as [| a l IH]; simpl; intros Hnd Hx Hy Hf.
  - by apply elem_of_nil in Hx.
  - apply NoDup_cons in Hnd as [Ha Hnd].
    apply elem_of_cons in Hx as [-> | Hx]; apply elem_of_cons in Hy as [-> | Hy].
    + done.
    + exfalso. apply Ha. rewrite Hf. apply list_elem_of_fmap. by exists y.
    + exfalso. apply Ha. rewrite <- Hf. apply list_elem_of_fmap. by exists x.
    + by apply IH.
Qed.

(** A name is assigned by one statement of one section. *)
Lemma stmt_unique S body s S' body' s' :
  (S, body) ∈ sections -> s ∈ body -> (S', body') ∈ sections -> s' ∈ body' ->
  stmt_name s = stmt_name s' -> S = S' /\ s = s'.
Proof.
  intros H1 H2 H3 H4 Hn.
  assert (Heq : (S, s) = (S', s')).
  { apply (NoDup_fmap_eq (fun p => stmt_name (snd p)) flat).
    - rewrite flat_names. apply all_names_NoDup.
    - apply elem_of_flat. by exists body.
    - apply elem_of_flat. by exists body'.
    - done. }
  by inversion Heq.
Qed.

Lemma stmt_name_in_all S body s :
  (S, body) ∈ sections -> s ∈ body -> stmt_name s ∈ all_names.
Proof.
  intros H1 H2. rewrite <- flat_names. apply list_elem_of_fmap.
  exists (S, s). split; [done |]. apply elem_of_flat. by exists body.
Qed.

(** ** The statements a run can execute *)

Lemma block_pool_names params S body :
  pool_names (block_pool params S body) `sublist_of` map stmt_name body.
Proof.
  unfold block_pool.
  destruct (py_contains S params) as [[|] | e]; try apply sublist_nil_l.
  destruct (py_getitem params S) as [sec | e]; try apply sublist_nil_l.
  unfold pool_names. rewrite map_map. simpl. reflexivity.
Qed.

Lemma active_names params : pool_names (active params) `sublist_of` all_names.
Proof.
  assert (Hall : all_names =
            map stmt_name data_prep_body ++ map stmt_name train_body ++
            map stmt_name inference_body ++ map stmt_name efficientdet_body)
    by reflexivity.
  rewrite Hall. unfold active, sections. cbn [map concat fst snd].
  rewrite app_nil_r, !pool_names_app.
  repeat apply sublist_app; apply block_pool_names.
Qed.

Lemma block_pool_dict d S body :
  block_pool (VDict d) S body =
  match dict_get d S with Some sec => map (pair sec) body | None => [] end.
Proof.
  unfold block_pool. simpl. destruct (dict_get d S) as [sec |] eqn:G.
  - by rewrite bool_decide_eq_true_2.
  - rewrite bool_decide_eq_false_2; [done |]. by intros [? ?].
Qed.

Lemma elem_of_active d sec s :
  (sec, s) ∈ active (VDict d) <->
  exists S body, (S, body) ∈ sections /\ dict_get d S = Some sec /\ s ∈ body.
Proof.
  unfold active. rewrite elem_of_concat. split.
  - intros (l & Hin & Hl).
    apply list_elem_of_fmap in Hl as ([S body] & -> & Hsb). simpl in Hin.
    rewrite block_pool_dict in Hin. destruct (dict_get d S) as [sec' |] eqn:G.
    + apply list_elem_of_fmap in Hin as (s' & Heq & Hs'). inversion Heq; subst.
      by exists S, body.
    + by apply elem_of_nil in Hin.
  - intros (S & body & Hsb & G & Hs). exists (block_pool (VDict d) S body). split.
    + rewrite block_pool_dict, G. apply list_elem_of_fmap. by exists s.
    + apply list_elem_of_fmap. by exists (S, body).
Qed.

(** ** What [__init__] leaves in the registry *)

Lemma init_writes params w :
  exists t, const_writes (snd (__init__ params w)) = const_writes w ++ t /\
            t `sublist_of` all_names.
Proof.
  destruct (init_effect params w) as [_ _ (t & Ht & Hs) _ _ _].
  exists t. split; [done |]. etransitivity; [exact Hs | apply active_names].
Qed.

Lemma init_monotone params w k v :
  consts w !! k = Some v -> consts (snd (__init__ params w)) !! k = Some v.
Proof. apply (init_effect params w). Qed.

Lemma init_other_names params w k :
  k ∉ all_names -> consts (snd (__init__ params w)) !! k = consts w !! k.
Proof.
  intros Hk. destruct (init_effect params w) as [_ _ _ Hm Hp _].
  destruct (consts w !! k) as [v |] eqn:E; [by apply Hm |].
  destruct (consts (snd (__init__ params w)) !! k) as [v |] eqn:E'; [| done].
  destruct (Hp _ _ E E') as (sec & s & Hin & Hs & _). exfalso. apply Hk.
  assert (Hin' : k ∈ pool_names (active params)).
  { unfold pool_names. apply list_elem_of_fmap. by exists (sec, s). }
  eapply elem_of_sublist; [exact Hin' | apply active_names].
Qed.

(** From a registry without the configuration constants, the binding of a
    statement's constant after a run on the dict [d]. *)
Lemma init_lookup d w S body s :
  (forall n, n ∈ all_names -> consts w !! n = None) ->
  (S, body) ∈ sections -> s ∈ body ->
  let r := fst (__init__ (VDict d) w) in
  let w' := snd (__init__ (VDict d) w) in
  match dict_get d S with
  | None => consts w' !! stmt_name s = None
  | Some sec =>
      (forall v, consts w' !! stmt_name s = Some v -> bound_value sec s = Some v) /\
      (is_ok r = true ->
         consts w' !! stmt_name s = bound_value sec s /\
         (unguarded s = true \/ key_present sec s = true ->
          is_Some (consts w' !! stmt_name s)))
  end.
Proof.
  intros Hfresh Hsb Hs r w'. subst r w'.
  destruct (init_effect (VDict d) w) as [_ _ _ Hm Hp Hd].
  pose proof (Hfresh _ (stmt_name_in_all _ _ _ Hsb Hs)) as Hn.
  assert (Hprov : forall v,
             consts (snd (__init__ (VDict d) w)) !! stmt_name s = Some v ->
             exists sec, dict_get d S = Some sec /\ bound_value sec s = Some v).
  { intros v Hv. destruct (Hp _ _ Hn Hv) as (sec & s' & Hin & Hname & Hb).
    apply elem_of_active in Hin as (S' & body' & Hsb' & G & Hs').
    destruct (stmt_unique _ _ _ _ _ _ Hsb Hs Hsb' Hs' (eq_sym Hname)) as [-> ->].
    by exists sec. }
  destruct (dict_get d S) as [sec |] eqn:G.
  - assert (Hfrom : forall v,
               consts (snd (__init__ (VDict d) w)) !! stmt_name s = Some v ->
               bound_value sec s = Some v).
    { intros v Hv. destruct (Hprov v Hv) as (sec' & Heq & Hb). congruence. }
    split; [exact Hfrom |]. intros Hok.
    assert (Hin : (sec, s) ∈ active (VDict d)).
    { apply elem_of_active. by exists S, body. }
    destruct (Hd Hok _ _ Hin) as [Hv Hu]. split.
    + destruct (bound_value sec s) as [v |] eqn:Hb; [by apply Hv |].
      destruct (consts (snd (__init__ (VDict d) w)) !! stmt_name s) as [v |] eqn:E;
        [| done].
      specialize (Hfrom v eq_refl). discriminate.
    + intros Hg. destruct (Hu Hg) as [v Hb]. exists v. by apply Hv.
  - destruct (consts (snd (__init__ (VDict d) w)) !! stmt_name s) as [v |] eqn:E;
      [| done].
    destruct (Hprov v eq_refl) as (sec & Heq & _). discriminate.
Qed.


(** ** Sections that are dicts *)

Lemma key_present_dict ed s :
  key_present (VDict ed) s = bool_decide (is_Some (dict_get ed (stmt_key s))).
Proof. unfold key_present. simpl. by destruct (bool_decide _). Qed.

Lemma key_absent_dict ed s :
  dict_get ed (stmt_key s) = None -> key_present (VDict ed) s = false.
Proof.
  intros H. rewrite key_present_dict, H. apply bool_decide_eq_false_2.
  by intros [? ?].
Qed.

Lemma bound_value_guarded sec s :
  unguarded s = false -> is_Some (bound_value sec s) -> key_present sec s = true.
Proof.
  unfold key_present. destruct s as [n k | n k | n k | n k]; simpl;
    try discriminate; intros _ [v Hv];
    by destruct (py_contains k sec) as [[|] | e].
Qed.

Lemma bound_value_or_none ed n k :
  bound_value (VDict ed) (AssignOrNone n k) = Some (default VNone (dict_get ed k)).
Proof.
  simpl. by destruct (dict_get ed k) as [v |].
Qed.

Lemma efficientdet_guarded s :
  s ∈ efficientdet_body -> stmt_name s <> "ANCHOR_BOX_SCALES" ->
  unguarded s = false.
Proof.
  intros Hs Hn. unfold efficientdet_body in Hs.
  repeat (apply elem_of_cons in Hs as [-> | Hs]); try done.
  by apply elem_of_nil in Hs.
Qed.

Lemma efficientdet_section : ("efficientdet", efficientdet_body) ∈ sections.
Proof. in_list. Qed.

End ConfigFacts.

(* ===================================================================== *)
(** * The constants that [__init__] binds                                    *)
(* ===================================================================== *)

Section ConfigTheorems.
Import PipelineConfig ConfigSpec ConfigFacts.

(** C3, as the code has it.  In a registry that holds none of the
    configuration constants yet, a run of [__init__] on the dict [d]
    binds constants from the four sections [data_prep], [train],
    [inference] and [efficientdet] only: every other name is left as it
    was; a constant of a section whose key is not in [d] stays unbound;
    a constant of a section that is in [d] can only be bound to the value
    its statement reads from that section.  When [__init__] returns, each
    constant of a present section holds exactly that value, an unguarded
    constant is bound, and a guarded one is bound exactly when its own key
    is in the section. *)
Theorem init_populates_from_sections (d : list (string * value)) (w : world) :
  (forall n, n ∈ all_names -> consts w !! n = None) ->
  let r := fst (__init__ (VDict d) w) in
  let w' := snd (__init__ (VDict d) w) in
  (forall k, k ∉ all_names -> consts w' !! k = consts w !! k) /\
  (forall S body s, (S, body) ∈ sections -> s ∈ body ->
     match dict_get d S with
     | None => consts w' !! stmt_name s = None
     | Some sec =>
         (forall v, consts w' !! stmt_name s = Some v ->
                    bound_value sec s = Some v) /\
         (r = Ok tt ->
            consts w' !! stmt_name s = bound_value sec s /\
            (unguarded s = true -> is_Some (consts w' !! stmt_name s)) /\
            (unguarded s = false ->
             (is_Some (consts w' !! stmt_name s) <-> key_present sec s = true)))
     end).
Proof.
  intros Hfresh r w'. split.
  - intros k Hk. by apply init_other_names.
  - intros S body s Hsb Hs.
    pose proof (init_lookup d w S body s Hfresh Hsb Hs) as H. simpl in H.
    destruct (dict_get d S) as [sec |]; [| exact H].
    destruct H as [Hfrom Hok]. split; [exact Hfrom |].
    intros Hr. subst r w'. rewrite Hr in Hok.
    destruct (Hok eq_refl) as [Heq Hsome]. split; [exact Heq |]. split.
    + intros Hu. apply Hsome. by left.
    + intros Hu. split.
      * intros Hb. apply bound_value_guarded; [done |]. by rewrite <- Heq.
      * intros Hp. apply Hsome. by right.
Qed.

(** C10.  With an [efficientdet] section [ed] in the params, only
    [ANCHOR_BOX_SCALES] has a default: when [__init__] returns and [ed] has
    no 'anchor_box_scales' the constant is bound to [None] (and to the
    section's entry when it has one), while every other constant of the
    section stays unbound when its key is not in [ed]. *)
Theorem efficientdet_only_anchor_scales_defaults
    (d ed : list (string * value)) (w : world) :
  (forall n, n ∈ all_names -> consts w !! n = None) ->
  dict_get d "efficientdet" = Some (VDict ed) ->
  let r := fst (__init__ (VDict d) w) in
  let w' := snd (__init__ (VDict d) w) in
  (r = Ok tt ->
     consts w' !! "ANCHOR_BOX_SCALES" =
     Some (default VNone (dict_get ed "anchor_box_scales"))) /\
  (forall s, s ∈ efficientdet_body -> stmt_name s <> "ANCHOR_BOX_SCALES" ->
     dict_get ed (stmt_key s) = None -> consts w' !! stmt_name s = None).
Proof.
  intros Hfresh Hed r w'. split.
  - intros Hr.
    assert (Hs : AssignOrNone "ANCHOR_BOX_SCALES" "anchor_box_scales"
                 ∈ efficientdet_body).
    { in_list. }
    pose proof (init_lookup d w _ _ _ Hfresh efficientdet_section Hs) as H.
    simpl in H. rewrite Hed in H. destruct H as [_ H].
    subst r w'. rewrite Hr in H. destruct (H eq_refl) as [Heq _].
    rewrite Heq. apply (bound_value_or_none ed "ANCHOR_BOX_SCALES").
  - intros s Hs Hn Hk.
    pose proof (init_lookup d w _ _ _ Hfresh efficientdet_section Hs) as H.
    simpl in H. rewrite Hed in H. destruct H as [Hfrom _].
    destruct (consts w' !! stmt_name s) as [v |] eqn:E; [| done].
    exfalso. subst w'. specialize (Hfrom v E).
    assert (Hp : key_present (VDict ed) s = true).
    { apply bound_value_guarded; [by apply efficientdet_guarded | by exists v]. }
    rewrite (key_absent_dict ed s Hk) in Hp. discriminate.
Qed.

End ConfigTheorems.

(** C3 as stated, "constants belonging to a section are assigned exactly
    when that section's key is present", fails on a configuration whose
    [efficientdet] section is empty: the section is present, [__init__]
    returns, and [ED_TRAIN_BACKBONE] is not bound. *)
Lemma efficientdet_constant_not_assigned :
  ~ ConfigSpec.assigned_iff_section_present [("efficientdet", VDict [])].
Proof.
  intros H.
  destruct (H "efficientdet" PipelineConfig.efficientdet_body
              (PipelineConfig.AssignIfPresent "ED_TRAIN_BACKBONE" "train_backbone"))
    as [_ Hc]; [in_list | in_list |].
  destruct Hc as [v Hv]; [by eexists |].
  vm_compute in Hv. discriminate.
Qed.

Lemma init_populates_from_sections_witness :
  (forall n, n ∈ PipelineConfig.all_names -> consts fresh_world !! n = None) /\
  consts (snd (PipelineConfig.__init__ (VDict demo_config) fresh_world))
    !! "ED_IMAGE_SIZES" = Some (VTuple [VInt 512; VInt 640]) /\
  consts (snd (PipelineConfig.__init__ (VDict demo_config) fresh_world))
    !! "level" = None.
Proof.
  assert (Hfresh : forall n, n ∈ PipelineConfig.all_names ->
                             consts fresh_world !! n = None).
  { intros n _. apply lookup_empty. }
  split; [exact Hfresh |].
  destruct (init_populates_from_sections demo_config fresh_world Hfresh)
    as [Hother Hsec].
  split.
  - specialize (Hsec "efficientdet" PipelineConfig.efficientdet_body
                  (PipelineConfig.AssignTupleIfPresent "ED_IMAGE_SIZES" "image_sizes")).
    simpl in Hsec. destruct Hsec as [_ Hok]; [in_list | in_list |].
    destruct Hok as [Heq _]; [reflexivity |]. exact Heq.
  - rewrite Hother; [apply lookup_empty |].
    intros Hin. apply list_elem_of_In in Hin. vm_compute in Hin.
    repeat (destruct Hin as [Hin | Hin]; [discriminate |]). exact Hin.
Defined.

Lemma efficientdet_only_anchor_scales_defaults_witness :
  (forall n, n ∈ PipelineConfig.all_names -> consts fresh_world !! n = None) /\
  dict_get demo_config "efficientdet" =
    Some (VDict [("train_backbone", VInt 0);
                 ("image_sizes", VList [VInt 512; VInt 640])]) /\
  consts (snd (PipelineConfig.__init__ (VDict demo_config) fresh_world))
    !! "ANCHOR_BOX_SCALES" = Some VNone /\
  consts (snd (PipelineConfig.__init__ (VDict demo_config) fresh_world))
    !! "ANCHOR_BOX_RATIOS" = None.
Proof.
  assert (Hfresh : forall n, n ∈ PipelineConfig.all_names ->
                             consts fresh_world !! n = None).
  { intros n _. apply lookup_empty. }
  split; [exact Hfresh |]. split; [reflexivity |].
  destruct (efficientdet_only_anchor_scales_defaults demo_config _ fresh_world
              Hfresh eq_refl) as [Hanchor Hrest].
  split.
  - apply Hanchor. reflexivity.
  - apply (Hrest (PipelineConfig.AssignIfPresent "ANCHOR_BOX_RATIOS"
                                                 "anchor_box_ratios")).
    + in_list.
    + discriminate.
    + reflexivity.
Defined.

(* ===================================================================== *)
(** * The registry after start-up                                           *)
(* ===================================================================== *)

Section RegistryFrame.
Context {E : Externals}.

Lemma keeps_logger l m : keeps registry (logger l m).
Proof. intros w; reflexivity. Qed.

Lemma keeps_getattr n : keeps registry (pconst.getattr n).
Proof. intros w. unfold pconst.getattr. by destruct (consts w !! n). Qed.

Lemma keeps_open_w p : keeps registry (open_w p).
Proof. intros w. unfold open_w. by destruct (writable p). Qed.

Lemma keeps_writerow p row : keeps registry (writerow p row).
Proof.
  intros w. unfold writerow. by destruct (files w !! p) as [[h rs | img | c] |].
Qed.

Lemma keeps_to_csv df path : keeps registry (to_csv df path).
Proof.
  intros w. unfold to_csv. destruct path; try reflexivity;
    by destruct (writable s).
Qed.

Lemma keeps_read_csv path : keeps registry (read_csv path).
Proof.
  intros w. unfold read_csv. destruct (fspath path) as [p | e]; [| done].
  by destruct (files w !! p).
Qed.

Lemma keeps_path_exists p : keeps registry (path_exists p).
Proof. intros w; reflexivity. Qed.

Lemma keeps_cv2_imread path : keeps registry (cv2_imread path).
Proof. intros w. unfold cv2_imread. by destruct path. Qed.

(** One step of a proof that a computation keeps the registry. *)
Ltac keeps_world :=
  repeat first
    [ apply keeps_ret | apply keeps_raise | apply keeps_lift
    | apply keeps_logger | apply keeps_getattr | apply keeps_open_w
    | apply keeps_writerow | apply keeps_to_csv | apply keeps_read_csv
    | apply keeps_path_exists | apply keeps_cv2_imread
    | apply keeps_bind; [| intros ?]
    | match goal with
      | |- keeps _ (if ?b then _ else _) => destruct b
      | |- keeps _ (match ?x with _ => _ end) => destruct x
      end ].

Lemma keeps_convert_row a : keeps registry (EfficientDetPipeline.convert_row a).
Proof. unfold EfficientDetPipeline.convert_row. keeps_world. Qed.

Lemma keeps_convert_rows anns acc :
  keeps registry (EfficientDetPipeline.convert_rows anns acc).
Proof.
  revert acc. induction anns as [| a rest IH]; intros acc; simpl.
  - apply keeps_ret.
  - apply keeps_bind; [apply keeps_convert_row | intros row; apply IH].
Qed.

Lemma keeps_write_rows p data :
  keeps registry (EfficientDetPipeline.write_rows p data).
Proof.
  induction data as [| r rest IH]; simpl.
  - apply keeps_ret.
  - apply keeps_bind; [apply keeps_writerow | intros _; apply IH].
Qed.

Lemma keeps_generate_annotations base annotations :
  keeps registry (EfficientDetPipeline.generate_annotations base annotations).
Proof.
  unfold EfficientDetPipeline.generate_annotations.
  repeat first [ apply keeps_convert_rows | apply keeps_write_rows
               | progress keeps_world ].
Qed.

Lemma keeps_get_image_list_loop names acc :
  keeps registry (get_image_list_loop names acc).
Proof.
  revert acc. induction names as [| f rest IH]; intros acc; simpl.
  - apply keeps_ret.
  - repeat first [ apply IH | progress keeps_world ].
Qed.

Lemma keeps_get_image_list : keeps registry get_image_list.
Proof.
  intros w. unfold get_image_list.
  destruct (os_listdir (files w) INFERENCE_INPUT_PATH) as [names | e]; [| done].
  apply keeps_get_image_list_loop.
Qed.

Lemma keeps_on_world {A} (c : M world A) :
  keeps registry c -> keeps registry_of (PeekingDuckPipeline.on_world c).
Proof.
  intros Hc [self w]. unfold registry_of, PeekingDuckPipeline.on_world. simpl.
  specialize (Hc w). by destruct (c w).
Qed.

Lemma keeps_get_self : keeps registry_of PeekingDuckPipeline.get_self.
Proof. intros st; reflexivity. Qed.

Lemma keeps_modify_self f : keeps registry_of (PeekingDuckPipeline.modify_self f).
Proof. intros st; reflexivity. Qed.

Lemma keeps_model_node_run inputs :
  keeps registry_of (PeekingDuckPipeline.model_node_run inputs).
Proof.
  intros [self w]. unfold PeekingDuckPipeline.model_node_run. simpl.
  destruct (PeekingDuckPipeline.model_node self) as [n |]; [| done].
  by destruct (node_run n inputs).
Qed.

Ltac keeps_object :=
  repeat first
    [ apply keeps_ret | apply keeps_raise | apply keeps_lift
    | apply keeps_get_self | apply keeps_modify_self
    | apply keeps_model_node_run
    | apply keeps_on_world; keeps_world
    | apply keeps_bind; [| intros ?]
    | match goal with
      | |- keeps _ (if ?b then _ else _) => destruct b
      | |- keeps _ (match ?x with _ => _ end) => destruct x
      end ].

Lemma keeps_draw_node_run inputs :
  keeps registry_of (PeekingDuckPipeline.draw_node_run inputs).
Proof.
  intros [self w]. unfold PeekingDuckPipeline.draw_node_run. simpl.
  destruct (PeekingDuckPipeline.draw_node self) as [n |]; [| done].
  by destruct (node_run n inputs).
Qed.

Lemma keeps_visualise_loop num i rs :
  keeps registry_of (PeekingDuckPipeline.visualise_loop num i rs).
Proof.
  revert i. induction rs as [| row rest IH]; intros i; simpl.
  - apply keeps_ret.
  - repeat first [ apply keeps_draw_node_run | apply IH | progress keeps_object ].
Qed.

Lemma keeps_visualise df : keeps registry_of (PeekingDuckPipeline.visualise df).
Proof.
  unfold PeekingDuckPipeline.visualise.
  repeat first [ apply keeps_visualise_loop | progress keeps_object ].
Qed.

Lemma keeps_set_model_node : keeps registry_of PeekingDuckPipeline.set_model_node.
Proof. unfold PeekingDuckPipeline.set_model_node. keeps_object. Qed.

Lemma keeps_set_draw_node : keeps registry_of PeekingDuckPipeline.set_draw_node.
Proof. unfold PeekingDuckPipeline.set_draw_node. keeps_object. Qed.

Lemma keeps_save_predict_output df p :
  keeps registry_of (PeekingDuckPipeline.save_predict_output df p).
Proof. unfold PeekingDuckPipeline.save_predict_output. keeps_object. Qed.

Lemma keeps_read_predict_output p :
  keeps registry_of (PeekingDuckPipeline.read_predict_output p).
Proof. unfold PeekingDuckPipeline.read_predict_output. keeps_object. Qed.

Lemma keeps_infer_one o p img path acc :
  keeps registry_of (PeekingDuckPipeline.infer_one o p img path acc).
Proof.
  unfold PeekingDuckPipeline.infer_one.
  repeat first [ apply keeps_save_predict_output | progress keeps_object ].
Qed.

Lemma keeps_predict_custom_loop o p l acc df :
  keeps registry_of (PeekingDuckPipeline.predict_custom_loop o p l acc df).
Proof.
  revert acc df. induction l as [| path rest IH]; intros acc df; simpl.
  - apply keeps_ret.
  - repeat first [ apply keeps_infer_one | apply IH | progress keeps_object ].
Qed.

Lemma keeps_predict_loop o p ds acc df :
  keeps registry_of (PeekingDuckPipeline.predict_loop o p ds acc df).
Proof.
  revert acc df. induction ds as [| [element path] rest IH]; intros acc df; simpl.
  - apply keeps_ret.
  - repeat first [ apply keeps_infer_one | apply IH | progress keeps_object ].
Qed.

Lemma keeps_predict_custom l o p :
  keeps registry_of (PeekingDuckPipeline.predict_custom l o p).
Proof.
  unfold PeekingDuckPipeline.predict_custom.
  repeat first [ apply keeps_predict_custom_loop | progress keeps_object ].
Qed.

Lemma keeps_predict ds o p :
  keeps registry_of (PeekingDuckPipeline.predict ds o p).
Proof.
  unfold PeekingDuckPipeline.predict.
  repeat first [ apply keeps_predict_loop | progress keeps_object ].
Qed.

Lemma keeps_new_pipeline t c d dc x :
  keeps registry (PeekingDuckPipeline.__init__ t c d dc x).
Proof.
  intros w. unfold PeekingDuckPipeline.__init__.
  match goal with
  | |- context [ match ?body ?st with _ => _ end ] =>
      assert (Hk : keeps registry_of body)
  end.
  { repeat first [ apply keeps_set_model_node | apply keeps_set_draw_node
                 | progress keeps_object ]. }
  match goal with
  | |- context [ match ?body ?st with _ => _ end ] =>
      specialize (Hk st); destruct (body st) as [[u | e] st']
  end; exact Hk.
Qed.

Lemma run_call_registry (c : call) st :
  registry (snd (run_call c st)) = registry (snd st).
Proof.
  destruct c; simpl.
  - apply keeps_generate_annotations.
  - pose proof (keeps_new_pipeline model_node_type model_config draw_node_type
                  draw_config data (snd st)) as Hk.
    by destruct (PeekingDuckPipeline.__init__ _ _ _ _ _ (snd st)) as [[self | e] w'].
  - apply keeps_set_model_node.
  - apply keeps_set_draw_node.
  - apply keeps_save_predict_output.
  - apply keeps_read_predict_output.
  - apply keeps_get_image_list.
  - apply keeps_visualise.
  - apply keeps_predict.
  - apply keeps_predict_custom.
Qed.

End RegistryFrame.

(** C2.  The registry is written once, at start-up: a run of [__init__]
    executes at most one assignment per constant; no run of [__init__]
    changes or removes a constant that is already bound; and no other call
    into the repository changes the registry or assigns a constant. *)
Theorem constants_written_once_at_init {E : Externals} :
  (forall params w, const_writes w = [] ->
     NoDup (const_writes (snd (PipelineConfig.__init__ params w)))) /\
  (forall params w n v, consts w !! n = Some v ->
     consts (snd (PipelineConfig.__init__ params w)) !! n = Some v) /\
  (forall (c : call) st, registry (snd (run_call c st)) = registry (snd st)).
Proof.
  split; [| split].
  - intros params w Hw.
    destruct (ConfigFacts.init_writes params w) as (t & Ht & Hs).
    rewrite Ht, Hw. simpl.
    eapply sublist_NoDup; [apply ConfigFacts.all_names_NoDup | exact Hs].
  - intros params w n v. apply ConfigFacts.init_monotone.
  - intros c st. apply run_call_registry.
Qed.

Lemma constants_written_once_at_init_witness :
  const_writes fresh_world = [] /\
  NoDup (const_writes
           (snd (PipelineConfig.__init__ (VDict demo_config) fresh_world))) /\
  consts (snd (PipelineConfig.__init__ (VDict demo_config) demo_world))
    !! "RAW_DATA_PATH" = Some (VStr "raw") /\
  registry (snd (run_call (E := demo_externals)
                   (predict_custom_call [VStr "a.jpg"] (VBool true) (VStr "out.csv"))
                   (demo_pipeline, demo_world)))
  = registry demo_world.
Proof.
  destruct (constants_written_once_at_init (E := demo_externals))
    as (Honce & Hmono & Hcalls).
  split; [reflexivity |]. split; [by apply Honce |]. split.
  - by apply Hmono.
  - apply (Hcalls _ (demo_pipeline, demo_world)).
Defined.

(* ===================================================================== *)
(** * The annotation converter                                              *)
(* ===================================================================== *)

Section AnnotationFacts.
Context {E : Externals}.
Import EfficientDetPipeline AnnotationSpec.

Lemma set_files_twice f g w : set_files f (set_files g w) = set_files f w.
Proof. reflexivity. Qed.

Lemma convert_row_ok w raw a row :
  consts w !! "RAW_DATA_PATH" = Some raw ->
  annotation_row raw a = Some row ->
  convert_row a w = (Ok row, w).
Proof.
  intros Hraw Hrow.
  unfold convert_row, bind, lift, ret, pconst.getattr, series_getitem.
  unfold annotation_row in Hrow. rewrite Hraw.
  destruct (dict_get a "file_name") as [fn |]; [| discriminate]. simpl in *.
  destruct (Path raw fn) as [p | e]; [| discriminate]. simpl in *.
  destruct (dict_get a "category_name") as [c |]; [| discriminate]. simpl in *.
  destruct (dict_get a "bbox_x_min") as [v1 |]; [| discriminate]. simpl in *.
  destruct (py_int v1) as [x1 | e]; [| discriminate]. simpl in *.
  destruct (dict_get a "bbox_y_min") as [v2 |]; [| discriminate]. simpl in *.
  destruct (py_int v2) as [y1 | e]; [| discriminate]. simpl in *.
  destruct (dict_get a "bbox_x_max") as [v3 |]; [| discriminate]. simpl in *.
  destruct (py_int v3) as [x2 | e]; [| discriminate]. simpl in *.
  destruct (dict_get a "bbox_y_max") as [v4 |]; [| discriminate]. simpl in *.
  destruct (py_int v4) as [y2 | e]; [| discriminate]. simpl in *.
  congruence.
Qed.

Lemma convert_rows_ok w raw anns rs acc :
  consts w !! "RAW_DATA_PATH" = Some raw ->
  Forall2 (fun a r => annotation_row raw a = Some r) anns rs ->
  convert_rows anns acc w = (Ok (acc ++ rs), w).
Proof.
  intros Hraw Hall. revert acc.
  induction Hall as [| a r anns rs Ha Hall IH]; intros acc; simpl.
  - by rewrite app_nil_r.
  - unfold bind. rewrite (convert_row_ok w raw a r Hraw Ha).
    rewrite IH. by rewrite <- app_assoc.
Qed.

Lemma write_rows_ok p data : forall w h rs0,
  files w !! p = Some (CsvFile h rs0) ->
  write_rows p data w
  = (Ok tt, set_files (<[p := CsvFile h (rs0 ++ data)]> (files w)) w).
Proof.
  induction data as [| r rest IH]; intros w h rs0 Hp; simpl.
  - unfold ret. rewrite app_nil_r. rewrite insert_id by done.
    by destruct w.
  - unfold bind, writerow. rewrite Hp.
    rewrite (IH _ h (rs0 ++ [r])).
    + simpl. rewrite insert_insert_eq, <- app_assoc. reflexivity.
    + simpl. apply lookup_insert_eq.
Qed.




(** The converter on a DataFrame all of whose rows convert. *)
Lemma generate_annotations_writes w base raw ap out df rs :
  configured w base raw ap out ->
  writable out = true ->
  Forall2 (fun a r => annotation_row raw a = Some r) (iterrows df) rs ->
  generate_annotations base (Some df) w
  = (Ok tt, set_files (<[out := CsvFile None rs]> (files w)) w).
Proof.
  intros [(interim & combined & Hi & Hc & Hap) Hraw
          (processed & backbone & Hp & Hb & Hout)] Hw Hrows.
  unfold generate_annotations, bind, lift, ret, pconst.getattr.
  rewrite Hi, Hc, Hap.
  rewrite (convert_rows_ok w raw _ rs [] Hraw Hrows). simpl.
  rewrite Hp, Hb. unfold output_name in Hout. rewrite Hout.
  unfold open_w. rewrite Hw.
  rewrite (write_rows_ok out rs _ None []).
  - simpl. by rewrite insert_insert_eq.
  - simpl. apply lookup_insert_eq.
Qed.

End AnnotationFacts.

(** [int] on the floats 7.5 and -7.5, and on NaN. *)
Example py_int_truncates :
  py_int (E := demo_externals) (VFloat (S754_finite false 15 (-1))) = Ok 7 /\
  py_int (E := demo_externals) (VFloat (S754_finite true 15 (-1))) = Ok (-7) /\
  py_int (E := demo_externals) (VFloat S754_nan)
  = Raise (ValueError "cannot convert float NaN to integer").
Proof. repeat split. Qed.

Section AnnotationTheorems.
Context {E : Externals}.
Import EfficientDetPipeline AnnotationSpec.

(** C1.  Given an annotations DataFrame, with the constants it reads bound
    and the output file creatable, [generate_annotations] returns and
    leaves at the output path a CSV file with no header row whose rows are,
    one per DataFrame row and in the same order, the rows
    [Path(RAW_DATA_PATH, file_name), int(bbox_x_min), int(bbox_y_min),
     int(bbox_x_max), int(bbox_y_max), category_name]. *)
Theorem generate_annotations_rows
    (w : world) (base_filename : string) (raw : value)
    (annot_filepath out : string) (annotations : DataFrame)
    (csv_rows : list (list value)) :
  configured w base_filename raw annot_filepath out ->
  writable out = true ->
  Forall2 (fun annotation row => annotation_row raw annotation = Some row)
          (iterrows annotations) csv_rows ->
  let res := generate_annotations base_filename (Some annotations) w in
  fst res = Ok tt /\
  files (snd res) = <[out := CsvFile None csv_rows]> (files w) /\
  length csv_rows = length (rows annotations).
Proof.
  intros Hcfg Hw Hrows res. subst res.
  rewrite (generate_annotations_writes w base_filename raw annot_filepath out
             annotations csv_rows Hcfg Hw Hrows).
  simpl. repeat split.
  apply Forall2_length in Hrows. unfold iterrows in Hrows.
  rewrite length_map in Hrows. by symmetry.
Qed.

(** C5.  Called without annotations when the file of combined annotations
    does not exist, [generate_annotations] logs one error and returns: no
    exception, and the file system is as it was. *)
Theorem generate_annotations_missing_file
    (w : world) (base_filename : string) (interim combined : value)
    (annot_filepath : string) :
  consts w !! "INTERIM_DATA_PATH" = Some interim ->
  consts w !! "COMBINED_ANNOTATIONS_FILENAME" = Some combined ->
  Path interim combined = Ok annot_filepath ->
  files w !! annot_filepath = None ->
  let res := generate_annotations base_filename None w in
  fst res = Ok tt /\
  files (snd res) = files w /\
  log (snd res) =
    log w ++ [(ERROR, Text ("Annotations file missing @ " +:+ annot_filepath
                            +:+ "! No annotations to generate."))].
Proof.
  intros Hi Hc Hap Hmissing res. subst res.
  unfold generate_annotations, bind, lift, ret, pconst.getattr, path_exists.
  rewrite Hi, Hc, Hap, Hmissing.
  rewrite bool_decide_eq_false_2 by (by intros [? ?]).
  simpl. done.
Qed.

(** C6.  No order of the corners is required: whatever the integers
    [x1], [y1], [x2], [y2] that the coordinates of the i-th annotation
    convert to, also with [x1 >= x2] or [y1 >= y2], the i-th row of the
    written file carries them unchanged and in the same columns, and the
    file has as many rows as the DataFrame. *)
Theorem generate_annotations_checks_no_order
    (w : world) (base_filename : string) (raw : value)
    (annot_filepath out : string) (annotations : DataFrame)
    (csv_rows : list (list value)) (i : nat) (annotation : Series)
    (image_file_path : string) (x1 y1 x2 y2 : Z) (class_name : value) :
  configured w base_filename raw annot_filepath out ->
  writable out = true ->
  Forall2 (fun annotation row => annotation_row raw annotation = Some row)
          (iterrows annotations) csv_rows ->
  iterrows annotations !! i = Some annotation ->
  annotation_row raw annotation
  = Some [VPath image_file_path; VInt x1; VInt y1; VInt x2; VInt y2; class_name] ->
  let res := generate_annotations base_filename (Some annotations) w in
  fst res = Ok tt /\
  exists written,
    files (snd res) !! out = Some (CsvFile None written) /\
    length written = length (rows annotations) /\
    written !! i
    = Some [VPath image_file_path; VInt x1; VInt y1; VInt x2; VInt y2; class_name].
Proof.
  intros Hcfg Hw Hrows Hi Hrow res. subst res.
  rewrite (generate_annotations_writes w base_filename raw annot_filepath out
             annotations csv_rows Hcfg Hw Hrows).
  simpl. split; [done |]. exists csv_rows. split; [apply lookup_insert_eq |].
  split.
  - apply Forall2_length in Hrows. unfold iterrows in Hrows.
    rewrite length_map in Hrows. by symmetry.
  - destruct (Forall2_lookup_l _ _ _ _ _ Hrows Hi) as (row & Hrow' & Heq).
    rewrite Hrow'. congruence.
Qed.

End AnnotationTheorems.

Lemma demo_configured :
  AnnotationSpec.configured (E := demo_externals) demo_world "train.csv"
    (VStr "raw") "interim/annotations_all.csv"
    "processed/train_efficientdet_b0.csv".
Proof.
  split.
  - exists (VStr "interim"), (VStr "annotations_all.csv"). by vm_compute.
  - by vm_compute.
  - exists (VStr "processed"), (VInt 0). by vm_compute.
Defined.

Lemma demo_rows_convert :
  Forall2 (fun annotation row =>
             AnnotationSpec.annotation_row (E := demo_externals) (VStr "raw")
               annotation = Some row)
          (iterrows demo_annotations) demo_csv_rows.
Proof. repeat constructor. Defined.

Lemma generate_annotations_rows_witness :
  AnnotationSpec.configured (E := demo_externals) demo_world "train.csv"
    (VStr "raw") "interim/annotations_all.csv"
    "processed/train_efficientdet_b0.csv" /\
  writable (Externals := demo_externals) "processed/train_efficientdet_b0.csv"
  = true /\
  Forall2 (fun annotation row =>
             AnnotationSpec.annotation_row (E := demo_externals) (VStr "raw")
               annotation = Some row)
          (iterrows demo_annotations) demo_csv_rows /\
  let res := EfficientDetPipeline.generate_annotations (E := demo_externals)
               "train.csv" (Some demo_annotations) demo_world in
  fst res = Ok tt /\
  files (snd res) = <[ "processed/train_efficientdet_b0.csv"
                       := CsvFile None demo_csv_rows ]> (files demo_world) /\
  length demo_csv_rows = length (rows demo_annotations).
Proof.
  split; [exact demo_configured |]. split; [reflexivity |].
  split; [exact demo_rows_convert |].
  exact (generate_annotations_rows (E := demo_externals) demo_world "train.csv"
           (VStr "raw") "interim/annotations_all.csv"
           "processed/train_efficientdet_b0.csv" demo_annotations demo_csv_rows
           demo_configured eq_refl demo_rows_convert).
Defined.

Lemma generate_annotations_missing_file_witness :
  consts demo_world !! "INTERIM_DATA_PATH" = Some (VStr "interim") /\
  consts demo_world !! "COMBINED_ANNOTATIONS_FILENAME"
  = Some (VStr "annotations_all.csv") /\
  Path (E := demo_externals) (VStr "interim") (VStr "annotations_all.csv")
  = Ok "interim/annotations_all.csv" /\
  files demo_world !! "interim/annotations_all.csv" = None /\
  let res := EfficientDetPipeline.generate_annotations (E := demo_externals)
               "train.csv" None demo_world in
  fst res = Ok tt /\
  files (snd res) = files demo_world /\
  log (snd res) =
    [(ERROR, Text "Annotations file missing @ interim/annotations_all.csv! No annotations to generate.")].
Proof.
  do 4 (split; [reflexivity |]).
  exact (generate_annotations_missing_file (E := demo_externals) demo_world
           "train.csv" (VStr "interim") (VStr "annotations_all.csv")
           "interim/annotations_all.csv" eq_refl eq_refl eq_refl eq_refl).
Defined.

Lemma generate_annotations_checks_no_order_witness :
  AnnotationSpec.configured (E := demo_externals) demo_world "train.csv"
    (VStr "raw") "interim/annotations_all.csv"
    "processed/train_efficientdet_b0.csv" /\
  writable (Externals := demo_externals) "processed/train_efficientdet_b0.csv"
  = true /\
  Forall2 (fun annotation row =>
             AnnotationSpec.annotation_row (E := demo_externals) (VStr "raw")
               annotation = Some row)
          (iterrows demo_annotations) demo_csv_rows /\
  (7 >= 2 /\ 8 >= 3) /\
  let res := EfficientDetPipeline.generate_annotations (E := demo_externals)
               "train.csv" (Some demo_annotations) demo_world in
  fst res = Ok tt /\
  exists written,
    files (snd res) !! "processed/train_efficientdet_b0.csv"
    = Some (CsvFile None written) /\
    length written = length (rows demo_annotations) /\
    written !! 1%nat
    = Some [VPath "raw/b.jpg"; VInt 7; VInt 8; VInt 2; VInt 3; VStr "debris"].
Proof.
  split; [exact demo_configured |]. split; [reflexivity |].
  split; [exact demo_rows_convert |]. split; [lia |].
  exact (generate_annotations_checks_no_order (E := demo_externals) demo_world
           "train.csv" (VStr "raw") "interim/annotations_all.csv"
           "processed/train_efficientdet_b0.csv" demo_annotations demo_csv_rows
           1%nat _ "raw/b.jpg" 7 8 2 3 (VStr "debris")
           demo_configured eq_refl demo_rows_convert eq_refl eq_refl).
Defined.

(* ===================================================================== *)
(** * The inference wrapper                                                 *)
(* ===================================================================== *)

Section InferenceFacts.
Context {E : Externals}.
Import PeekingDuckPipeline InferenceSpec InferenceRun.

Lemma is_str_true k v : is_str k v = true -> v = VStr k.
Proof.
  destruct v; simpl; try discriminate. intros H.
  apply String.eqb_eq in H. by subst.
Qed.

Lemma cv2_imread_load w path img :
  load_image (files w) path = Some img ->
  cv2_imread path w = (Ok (Some img), w).
Proof.
  unfold load_image, cv2_imread. destruct path; try discriminate;
    destruct (files w !! s) as [[h rs | i | c] |]; try discriminate;
    by intros [= ->].
Qed.

Lemma to_csv_ok df path p w :
  fspath path = Ok p -> writable p = true ->
  to_csv df path w = (Ok tt, set_files (<[p := csv_of df]> (files w)) w).
Proof.
  intros Hp Hw. unfold to_csv.
  destruct path; try discriminate; simpl in Hp; inversion Hp; subst;
    by rewrite Hw.
Qed.

Lemma load_image_insert fs path p f img :
  fspath path <> Ok p ->
  load_image fs path = Some img ->
  load_image (<[p := f]> fs) path = Some img.
Proof.
  intros Hne. unfold load_image.
  destruct path; try discriminate; simpl in Hne;
    (rewrite lookup_insert_ne; [done | congruence]).
Qed.

Lemma steps_ok_insert fs p f steps :
  Forall (fun s => fspath (st_path s) <> Ok p) steps ->
  steps_ok fs steps -> steps_ok (<[p := f]> fs) steps.
Proof.
  unfold steps_ok. intros Hne Hok.
  induction Hok as [| s rest (Hl & Hb & Hlab) Hok IH]; [constructor |].
  apply Forall_cons in Hne as [Hs Hne]. constructor; [| by apply IH].
  split; [by apply load_image_insert | done].
Qed.

Lemma infer_one_ok opt output_path b p self w n n1 s acc :
  model_node self = Some n ->
  node_run n (model_input s) = (Ok (st_out s), n1) ->
  py_getitem (st_out s) "bboxes" = Ok (st_bboxes s) ->
  py_getitem (st_out s) "bbox_labels" = Ok (st_labels s) ->
  py_truthy opt = Ok b ->
  (b = true -> fspath output_path = Ok p /\ writable p = true) ->
  infer_one opt output_path (swap_channels (st_img s)) (st_path s) acc (self, w)
  = (Ok (acc ++ [record_of s], pd_DataFrame (acc ++ [record_of s])),
     (with_model_node (Some n1) self, after_run b p acc [s] w)).
Proof.
  intros Hn Hrun Hb Hl Ht Hsave.
  unfold infer_one, bind, lift, ret, model_node_run. simpl.
  rewrite Hn. unfold model_input in Hrun. rewrite Hrun. simpl.
  rewrite Hb, Hl, Ht. unfold after_run, record_of. simpl.
  destruct b.
  - destruct (Hsave eq_refl) as [Hp Hw].
    unfold save_predict_output, on_world. simpl.
    rewrite (to_csv_ok _ _ p _ Hp Hw). reflexivity.
  - reflexivity.
Qed.

Lemma with_model_node_same self n :
  model_node self = Some n -> with_model_node (Some n) self = self.
Proof. destruct self; simpl. by intros ->. Qed.

(** The loop of [predict_custom] on steps that go well. *)
Lemma predict_custom_loop_run opt output_path b p steps :
  py_truthy opt = Ok b ->
  forall self w n n' acc df0,
  model_node self = Some n ->
  steps_ok (files w) steps ->
  node_outputs n (map model_input steps) = Some (map st_out steps, n') ->
  save_ok b output_path p steps ->
  predict_custom_loop opt output_path (map st_path steps) acc df0 (self, w)
  = (Ok (match steps with
         | [] => df0
         | _ :: _ => Some (pd_DataFrame (acc ++ map record_of steps))
         end),
     (with_model_node (Some n') self, after_run b p acc steps w)).
Proof.
  intros Ht. induction steps as [| s rest IH];
    intros self w n n' acc df0 Hn Hok Hruns Hsave.
  - simpl in *. inversion Hruns; subst n'. unfold ret, after_run. simpl.
    rewrite with_model_node_same by done. rewrite app_nil_r. by destruct w.
  - apply Forall_cons in Hok as [(Hload & Hb & Hl) Hok].
    simpl in Hruns.
    destruct (node_run n (model_input s)) as [[out | e] n1] eqn:Hrun;
      [| discriminate].
    destruct (node_outputs n1 (map model_input rest)) as [[os n2] |] eqn:Hrest;
      [| discriminate].
    inversion Hruns; subst out os n2.
    assert (Hsave1 : b = true -> fspath output_path = Ok p /\ writable p = true).
    { intros Hbt. destruct (Hsave Hbt) as (? & ? & ?). done. }
    assert (Hsave2 : save_ok b output_path p rest).
    { intros Hbt. destruct (Hsave Hbt) as (? & ? & Hne).
      apply Forall_cons in Hne as [_ Hne]. done. }
    simpl. unfold bind at 1. unfold on_world at 1. simpl.
    rewrite (cv2_imread_load w _ _ Hload). simpl.
    unfold bind at 1. unfold lift at 1. simpl.
    unfold bind at 1.
    rewrite (infer_one_ok opt output_path b p self w n n1 s acc
               Hn Hrun Hb Hl Ht Hsave1).
    cbv beta iota. cbn [fst snd].
    assert (Hok1 : steps_ok (files (after_run b p acc [s] w)) rest).
    { unfold after_run. destruct b; simpl; [| done].
      destruct (Hsave eq_refl) as (_ & _ & Hne).
      apply Forall_cons in Hne as [_ Hne]. by apply steps_ok_insert. }
    rewrite (IH (with_model_node (Some n1) self) (after_run b p acc [s] w)
                n1 n' (acc ++ [record_of s])
                (Some (pd_DataFrame (acc ++ [record_of s])))
                eq_refl Hok1 Hrest Hsave2).
    f_equal.
    + destruct rest; simpl; [done |]. by rewrite <- app_assoc.
    + f_equal. unfold after_run. destruct rest as [| s2 rest]; simpl.
      * destruct b; simpl; by rewrite app_nil_r.
      * destruct b; simpl.
        -- unfold set_files. simpl. rewrite insert_insert_eq.
           by rewrite <- !app_assoc.
        -- by rewrite <- !app_assoc.
Qed.

Lemma first_seen_again (rest : list step) :
  fold_left (fun acc k => if existsb (String.eqb k) acc then acc else acc ++ [k])
            (concat (map dict_keys (map record_of rest))) table_columns
  = table_columns.
Proof.
  induction rest as [| s rest IH]; simpl; [done |]. exact IH.
Qed.

Lemma pd_DataFrame_records steps :
  steps <> [] -> pd_DataFrame (map record_of steps) = table_of steps.
Proof.
  intros Hne. destruct steps as [| s rest]; [done |].
  unfold pd_DataFrame, table_of.
  assert (Hcols : first_seen (concat (map dict_keys (map record_of (s :: rest))))
                  = table_columns).
  { unfold first_seen. simpl. apply first_seen_again. }
  rewrite Hcols. f_equal. rewrite map_map. apply map_ext. intros x. reflexivity.
Qed.

(** [predict_custom] on a non-empty list of images whose steps go well. *)
Lemma predict_custom_run opt output_path b p steps self w n n' :
  steps <> [] ->
  py_truthy opt = Ok b ->
  model_node self = Some n ->
  steps_ok (files w) steps ->
  node_outputs n (map model_input steps) = Some (map st_out steps, n') ->
  save_ok b output_path p steps ->
  predict_custom (map st_path steps) opt output_path (self, w)
  = (Ok (table_of steps),
     (with_model_node (Some n') self,
      World (consts w) (const_writes w)
            (if b then <[p := csv_of (table_of steps)]> (files w) else files w)
            (log w) (node_calls w ++ map model_input steps))).
Proof.
  intros Hne Ht Hn Hok Hruns Hsave. unfold predict_custom, bind.
  rewrite (predict_custom_loop_run opt output_path b p steps Ht self w n n' []
             None Hn Hok Hruns Hsave).
  destruct steps as [| s rest]; [done |].
  unfold ret, after_run.
  change ([] ++ map record_of (s :: rest)) with (map record_of (s :: rest)).
  rewrite pd_DataFrame_records by done.
  by destruct b.
Qed.

End InferenceFacts.

Section InferenceTheorems.
Context {E : Externals}.
Import PeekingDuckPipeline InferenceSpec InferenceRun.

(** C4.  On a non-empty list of images, each read and processed by the
    node without error, [predict_custom] returns the table with one record
    per image, in the order of the list, holding the boxes, the labels and
    the image path.  When [save_output_option] is true and [output_path]
    names a writable file, the file holds that table as CSV; when it is
    false the file system is as it was. *)
Theorem predict_custom_table
    (steps : list step) (save_output_option output_path : value) (b : bool)
    (p : string) (self : pipeline) (w : world) (n n' : node) :
  steps <> [] ->
  py_truthy save_output_option = Ok b ->
  model_node self = Some n ->
  steps_ok (files w) steps ->
  node_outputs n (map model_input steps) = Some (map st_out steps, n') ->
  save_ok b output_path p steps ->
  let res := predict_custom (map st_path steps) save_output_option output_path
                            (self, w) in
  let records := map (fun s => [st_bboxes s; st_labels s; st_path s]) steps in
  fst res = Ok (mkDataFrame ["bboxes"; "bbox_labels"; "img_path"] records) /\
  length records = length (map st_path steps) /\
  files (snd (snd res))
  = if b
    then <[p := CsvFile (Some ["bboxes"; "bbox_labels"; "img_path"]) records]>
           (files w)
    else files w.
Proof.
  intros Hne Ht Hn Hok Hruns Hsave res records. subst res records.
  rewrite (predict_custom_run save_output_option output_path b p steps self w
             n n' Hne Ht Hn Hok Hruns Hsave).
  simpl. split; [done |]. split; [by rewrite !length_map |]. by destruct b.
Qed.

(** C7.  In such a run the node's [run] is called once per image path, in
    order, on the dict that maps 'img' to the loaded image, and the i-th
    record holds the 'bboxes' and 'bbox_labels' entries of the i-th call's
    output as they are. *)
Theorem predict_custom_runs_node_once_per_image
    (steps : list step) (save_output_option output_path : value) (b : bool)
    (p : string) (self : pipeline) (w : world) (n n' : node) :
  steps <> [] ->
  py_truthy save_output_option = Ok b ->
  model_node self = Some n ->
  steps_ok (files w) steps ->
  node_outputs n (map model_input steps) = Some (map st_out steps, n') ->
  save_ok b output_path p steps ->
  let res := predict_custom (map st_path steps) save_output_option output_path
                            (self, w) in
  node_calls (snd (snd res))
  = node_calls w
    ++ map (fun s => VDict [("img", VImage (swap_channels (st_img s)))]) steps /\
  exists df, fst res = Ok df /\
    forall i s, steps !! i = Some s ->
      exists bboxes bbox_labels,
        py_getitem (st_out s) "bboxes" = Ok bboxes /\
        py_getitem (st_out s) "bbox_labels" = Ok bbox_labels /\
        rows df !! i = Some [bboxes; bbox_labels; st_path s].
Proof.
  intros Hne Ht Hn Hok Hruns Hsave res. subst res.
  rewrite (predict_custom_run save_output_option output_path b p steps self w
             n n' Hne Ht Hn Hok Hruns Hsave).
  simpl. split; [done |]. exists (table_of steps). split; [done |].
  intros i s Hi. unfold steps_ok in Hok.
  destruct (proj1 (Forall_lookup _ _) Hok i s Hi) as (_ & Hb & Hl).
  exists (st_bboxes s), (st_labels s). split; [done |]. split; [done |].
  simpl. rewrite list_lookup_fmap, Hi. done.
Qed.

(** C8.  With [model_node_type] "effdet" the efficientdet node is built
    and stored in [self.model_node], and then [ValueError] is raised all
    the same; [set_model_node] returns only for "life3_effdet", for which
    it stores the node. *)
Theorem set_model_node_effdet_raises :
  (forall self w n,
     model_node_type self = VStr "effdet" ->
     efficientdet_Node (model_config self) = Ok n ->
     let res := set_model_node (self, w) in
     fst res = Raise (ValueError "Unsupported model node type specified!") /\
     model_node (fst (snd res)) = Some n) /\
  (forall st, fst (set_model_node st) = Ok tt ->
     model_node_type (fst st) = VStr "life3_effdet") /\
  (forall self w n,
     model_node_type self = VStr "life3_effdet" ->
     life3_efficientdet_Node (model_config self) = Ok n ->
     let res := set_model_node (self, w) in
     fst res = Ok tt /\ model_node (fst (snd res)) = Some n).
Proof.
  split; [| split].
  - intros self w n Ht Hn res. subst res.
    unfold set_model_node, bind, get_self, lift, modify_self, on_world, raise.
    simpl. rewrite Ht. simpl. rewrite Hn. simpl. rewrite Ht. simpl. done.
  - intros [self w]. unfold set_model_node, bind, get_self, lift, modify_self,
      on_world, raise. simpl.
    destruct (is_str "effdet" (model_node_type self)) eqn:He; simpl.
    + destruct (efficientdet_Node (model_config self)) as [n | e]; simpl;
        [| discriminate].
      destruct (is_str "life3_effdet" (model_node_type self)) eqn:Hl; simpl;
        [| discriminate].
      intros _. by apply is_str_true.
    + destruct (is_str "life3_effdet" (model_node_type self)) eqn:Hl; simpl;
        [| discriminate].
      intros _. by apply is_str_true.
  - intros self w n Ht Hn res. subst res.
    unfold set_model_node, bind, get_self, lift, modify_self, on_world, raise.
    simpl. rewrite Ht. simpl. rewrite Ht. simpl. rewrite Hn. simpl. done.
Qed.

(** C9.  On an empty list [predict_custom] does not return a table: no
    iteration binds [pred_outputs_df], and the [return] raises
    [UnboundLocalError], whatever [save_output_option] and [output_path]
    are; nothing else happens. *)
Theorem predict_custom_empty_list_raises
    (save_output_option output_path : value) (st : pipeline * world) :
  predict_custom [] save_output_option output_path st
  = (Raise (UnboundLocalError "pred_outputs_df"), st).
Proof. reflexivity. Qed.

End InferenceTheorems.

Lemma demo_steps_ok :
  InferenceSpec.steps_ok (files demo_world) demo_steps.
Proof. repeat constructor. Defined.

Lemma demo_save_ok :
  InferenceSpec.save_ok (E := demo_externals) true (VStr "out.csv") "out.csv"
                        demo_steps.
Proof.
  intros _. split; [reflexivity |]. split; [reflexivity |].
  repeat constructor; discriminate.
Defined.

Lemma demo_steps_nonempty : demo_steps <> [].
Proof. discriminate. Defined.

Lemma predict_custom_table_witness :
  demo_steps <> [] /\
  py_truthy (VBool true) = Ok true /\
  PeekingDuckPipeline.model_node demo_pipeline = Some 0 /\
  InferenceSpec.steps_ok (files demo_world) demo_steps /\
  InferenceSpec.node_outputs (E := demo_externals) 0
    (map InferenceSpec.model_input demo_steps)
  = Some (map InferenceSpec.st_out demo_steps, 2) /\
  InferenceSpec.save_ok (E := demo_externals) true (VStr "out.csv") "out.csv"
    demo_steps /\
  let res := PeekingDuckPipeline.predict_custom (E := demo_externals)
               [VStr "a.jpg"; VStr "b.jpg"] (VBool true) (VStr "out.csv")
               (demo_pipeline, demo_world) in
  let records :=
    [ [VList [VList [VInt 0; VInt 0; VInt 9; VInt 9]]; VList [VStr "cell"];
       VStr "a.jpg"];
      [VList [VList [VInt 1; VInt 1; VInt 9; VInt 9]]; VList [VStr "cell"];
       VStr "b.jpg"] ] in
  fst res = Ok (mkDataFrame ["bboxes"; "bbox_labels"; "img_path"] records) /\
  length records = 2%nat /\
  files (snd (snd res))
  = <["out.csv" := CsvFile (Some ["bboxes"; "bbox_labels"; "img_path"]) records]>
      (files demo_world).
Proof.
  split; [exact demo_steps_nonempty |]. do 2 (split; [reflexivity |]).
  split; [exact demo_steps_ok |]. split; [reflexivity |].
  split; [exact demo_save_ok |].
  exact (predict_custom_table (E := demo_externals) demo_steps (VBool true)
           (VStr "out.csv") true "out.csv" demo_pipeline demo_world 0 2
           demo_steps_nonempty eq_refl eq_refl demo_steps_ok eq_refl
           demo_save_ok).
Defined.

Lemma predict_custom_runs_node_once_per_image_witness :
  demo_steps <> [] /\
  py_truthy (VBool true) = Ok true /\
  PeekingDuckPipeline.model_node demo_pipeline = Some 0 /\
  InferenceSpec.steps_ok (files demo_world) demo_steps /\
  InferenceSpec.node_outputs (E := demo_externals) 0
    (map InferenceSpec.model_input demo_steps)
  = Some (map InferenceSpec.st_out demo_steps, 2) /\
  InferenceSpec.save_ok (E := demo_externals) true (VStr "out.csv") "out.csv"
    demo_steps /\
  let res := PeekingDuckPipeline.predict_custom (E := demo_externals)
               [VStr "a.jpg"; VStr "b.jpg"] (VBool true) (VStr "out.csv")
               (demo_pipeline, demo_world) in
  node_calls (snd (snd res))
  = [VDict [("img", VImage [[(3, 2, 1)]])]; VDict [("img", VImage [[(6, 5, 4)]])]].
Proof.
  split; [exact demo_steps_nonempty |]. do 2 (split; [reflexivity |]).
  split; [exact demo_steps_ok |]. split; [reflexivity |].
  split; [exact demo_save_ok |].
  exact (proj1 (predict_custom_runs_node_once_per_image (E := demo_externals)
                  demo_steps (VBool true) (VStr "out.csv") true "out.csv"
                  demo_pipeline demo_world 0 2
                  demo_steps_nonempty eq_refl eq_refl demo_steps_ok eq_refl
                  demo_save_ok)).
Defined.

Lemma set_model_node_effdet_raises_witness :
  let self := PeekingDuckPipeline.mkPipeline (E := demo_externals)
                (VStr "effdet") (VDict []) VNone VNone VNone None None in
  let res := PeekingDuckPipeline.set_model_node (E := demo_externals)
               (self, demo_world) in
  PeekingDuckPipeline.model_node_type self = VStr "effdet" /\
  efficientdet_Node (Externals := demo_externals)
    (PeekingDuckPipeline.model_config self) = Ok 0 /\
  fst res = Raise (ValueError "Unsupported model node type specified!") /\
  PeekingDuckPipeline.model_node (fst (snd res)) = Some 0.
Proof.
  do 2 (split; [reflexivity |]).
  exact (proj1 (set_model_node_effdet_raises (E := demo_externals))
           (PeekingDuckPipeline.mkPipeline (E := demo_externals)
              (VStr "effdet") (VDict []) VNone VNone VNone None None)
           demo_world 0 eq_refl eq_refl).
Defined.

(* ===================================================================== *)
(** * More on the configuration loader                                      *)
(* ===================================================================== *)

Module ConfigMore.
Import PipelineConfig ConfigSpec ConfigFacts.

Lemma binds_fresh_nil {A} (c : M world A) : binds_fresh c [].
Proof. intros w _ sec s Hin. by apply elem_of_nil in Hin. Qed.

Lemma binds_fresh_bind {A B} (c : M world A) (k : A -> M world B) L1 L2 :
  has_effect c L1 -> binds_fresh c L1 -> (forall a, binds_fresh (k a) L2) ->
  binds_fresh (bind c k) (L1 ++ L2).
Proof.
  intros He Hc Hk w. unfold bind.
  specialize (He w). specialize (Hc w).
  destruct (c w) as [[a | e] w1]; simpl in *; [| discriminate].
  intros Hok sec s Hin Hb. apply elem_of_app in Hin as [Hin | Hin].
  - by apply (Hc eq_refl sec s).
  - pose proof (Hk a w1 Hok sec s Hin Hb) as Hfree.
    destruct (consts w !! stmt_name s) as [v |] eqn:E; [| done].
    rewrite (eff_mono _ _ _ _ He _ _ E) in Hfree. discriminate.
Qed.

Lemma binds_fresh_seq {A B} (c : M world A) (k : A -> M world B) L :
  has_effect c [] -> (forall a, binds_fresh (k a) L) -> binds_fresh (bind c k) L.
Proof.
  intros He Hk. apply (binds_fresh_bind c k [] L); [done | | done].
  apply binds_fresh_nil.
Qed.

Lemma binds_fresh_lift_bind {A B} (r : result A) (k : A -> M world B) L :
  (forall a, r = Ok a -> binds_fresh (k a) L) -> binds_fresh (bind (lift r) k) L.
Proof.
  intros Hk w. unfold bind, lift. destruct r as [a | e]; [by apply Hk |].
  simpl. discriminate.
Qed.

Lemma setattr_fresh sec s v :
  binds_fresh (pconst.setattr (stmt_name s) v) [(sec, s)].
Proof.
  intros w. unfold pconst.setattr.
  destruct (consts w !! stmt_name s) as [old |] eqn:E; simpl; [discriminate |].
  intros _ sec' s' Hin _. apply list_elem_of_singleton in Hin.
  inversion Hin; subst. exact E.
Qed.

Lemma skip_fresh {A} (c : M world A) sec s :
  bound_value sec s = None -> binds_fresh c [(sec, s)].
Proof.
  intros Hb w _ sec' s' Hin [v Hv]. apply list_elem_of_singleton in Hin.
  inversion Hin; subst. congruence.
Qed.

Lemma exec_stmt_fresh sec s : binds_fresh (exec_stmt sec s) [(sec, s)].
Proof.
  destruct s as [n k | n k | n k | n k]; unfold exec_stmt.
  - apply binds_fresh_lift_bind. intros v Hv.
    apply (setattr_fresh sec (Assign n k)).
  - destruct (py_contains k sec) as [[|] | e] eqn:C.
    + apply binds_fresh_lift_bind. intros b [= <-].
      apply binds_fresh_lift_bind. intros v Hv.
      apply (setattr_fresh sec (AssignIfPresent n k)).
    + apply skip_fresh. simpl. by rewrite C.
    + apply skip_fresh. simpl. by rewrite C.
  - destruct (py_contains k sec) as [[|] | e] eqn:C.
    + apply binds_fresh_lift_bind. intros b [= <-].
      apply binds_fresh_lift_bind. intros v Hv.
      apply (setattr_fresh sec (AssignOrNone n k)).
    + apply binds_fresh_lift_bind. intros b [= <-].
      apply (setattr_fresh sec (AssignOrNone n k)).
    + apply skip_fresh. simpl. by rewrite C.
  - destruct (py_contains k sec) as [[|] | e] eqn:C.
    + apply binds_fresh_lift_bind. intros b [= <-].
      apply binds_fresh_lift_bind. intros v Hv.
      apply binds_fresh_lift_bind. intros t Ht.
      apply (setattr_fresh sec (AssignTupleIfPresent n k)).
    + apply skip_fresh. simpl. by rewrite C.
    + apply skip_fresh. simpl. by rewrite C.
Qed.

Lemma exec_block_fresh sec body :
  binds_fresh (exec_block sec body) (map (pair sec) body).
Proof.
  induction body as [| s rest IH]; simpl.
  - apply binds_fresh_nil.
  - apply (binds_fresh_bind _ _ [(sec, s)]).
    + apply exec_stmt_effect.
    + apply exec_stmt_fresh.
    + intros _. apply IH.
Qed.


Ltac section_fresh Hb :=
  unfold block_pool; rewrite Hb;
  match goal with |- binds_fresh (if ?b then _ else _) _ => destruct b end;
  [| apply binds_fresh_nil];
  repeat first
    [ apply exec_block_fresh
    | apply binds_fresh_seq; [apply has_effect_logger | intros _]
    | apply binds_fresh_lift_bind; let sec := fresh "sec" in
      let Hsec := fresh "Hsec" in intros sec Hsec; rewrite Hsec ].

Lemma init_fresh params : binds_fresh (__init__ params) (active params).
Proof.
  unfold __init__, active, sections. cbn [map concat fst snd].
  apply binds_fresh_seq; [apply has_effect_logger | intros _].
  apply binds_fresh_lift_bind; intros b1 Hb1.
  apply binds_fresh_bind; [section_effect Hb1 | section_fresh Hb1 | intros _].
  apply binds_fresh_lift_bind; intros b2 Hb2.
  apply binds_fresh_bind; [section_effect Hb2 | section_fresh Hb2 | intros _].
  apply binds_fresh_lift_bind; intros b3 Hb3.
  apply binds_fresh_seq.
  { destruct b3.
    - apply has_effect_lift_bind; intros; apply has_effect_ret.
    - apply has_effect_ret. }
  intros _.
  apply binds_fresh_lift_bind; intros b4 Hb4.
  apply binds_fresh_bind; [section_effect Hb4 | section_fresh Hb4 | intros _].
  rewrite app_nil_r.
  apply binds_fresh_lift_bind; intros b5 Hb5.
  section_fresh Hb5.
Qed.

Lemma not_ok_raises {A} (r : result A) : is_ok r = false -> exists e, r = Raise e.
Proof. destruct r as [a | e]; [discriminate | by exists e]. Qed.

Lemma py_tuple_is_tuple v t : py_tuple v = Ok t -> exists l, t = VTuple l.
Proof. destruct v; simpl; intros [= <-]; by eexists. Qed.

End ConfigMore.

Section ConfigMoreTheorems.
Import PipelineConfig ConfigSpec ConfigFacts ConfigMore.

(** X1.  A section that is in the params but lacks the key of one of its
    unguarded assignments makes [__init__] raise, whatever the registry
    holds and whatever the other sections are. *)
Theorem init_missing_required_key_raises
    (d sec : list (string * value)) (w : world) (S : string)
    (body : list stmt) (name key : string) :
  (S, body) ∈ sections ->
  dict_get d S = Some (VDict sec) ->
  Assign name key ∈ body ->
  dict_get sec key = None ->
  exists e, fst (__init__ (VDict d) w) = Raise e.
Proof.
  intros Hsb Hsec Hs Hk. apply not_ok_raises.
  destruct (is_ok (fst (__init__ (VDict d) w))) eqn:Hok; [| done]. exfalso.
  destruct (init_effect (VDict d) w) as [_ _ _ _ _ Hd].
  assert (Hin : (VDict sec, Assign name key) ∈ active (VDict d)).
  { apply elem_of_active. by exists S, body. }
  destruct (Hd Hok _ _ Hin) as [_ Hu].
  destruct Hu as [v Hv]; [by left |]. simpl in Hv. rewrite Hk in Hv. discriminate.
Qed.

(** X2.  [__init__] cannot be run twice on the same params: after a run
    that returned and bound some constant [k], a second run on the same
    params raises, and it leaves the bindings exactly as the first run made
    them. *)
Theorem init_not_repeatable (d : list (string * value)) (w w1 : world)
    (k : string) (v : value) :
  __init__ (VDict d) w = (Ok tt, w1) ->
  consts w !! k = None ->
  consts w1 !! k = Some v ->
  (exists e, fst (__init__ (VDict d) w1) = Raise e) /\
  consts (snd (__init__ (VDict d) w1)) = consts w1.
Proof.
  intros Hrun Hk Hk1.
  pose proof (init_effect (VDict d) w) as H1. rewrite Hrun in H1. simpl in H1.
  destruct H1 as [_ _ _ Hm1 Hp1 Hd1].
  split.
  - apply not_ok_raises.
    destruct (is_ok (fst (__init__ (VDict d) w1))) eqn:Hok; [| done]. exfalso.
    destruct (Hp1 _ _ Hk Hk1) as (sec & s & Hin & _ & Hb).
    pose proof (init_fresh (VDict d) w1 Hok sec s Hin) as Hfree.
    rewrite (proj1 (Hd1 eq_refl _ _ Hin) _ Hb) in Hfree.
    specialize (Hfree ltac:(by eexists)). discriminate.
  - destruct (init_effect (VDict d) w1) as [_ _ _ Hm2 Hp2 _].
    apply map_eq. intros k'.
    destruct (consts w1 !! k') as [v' |] eqn:E; [by apply Hm2 |].
    destruct (consts (snd (__init__ (VDict d) w1)) !! k') as [v' |] eqn:E2;
      [| done].
    destruct (Hp2 _ _ E E2) as (sec & s & Hin & Hname & Hb).
    rewrite <- Hname in E. rewrite (proj1 (Hd1 eq_refl _ _ Hin) _ Hb) in E.
    discriminate.
Qed.

(** X3.  Whatever the params hold under 'image_sizes', a bound
    [ED_IMAGE_SIZES] is a tuple. *)
Theorem image_sizes_is_a_tuple (d : list (string * value)) (w : world) (v : value) :
  (forall n, n ∈ all_names -> consts w !! n = None) ->
  consts (snd (__init__ (VDict d) w)) !! "ED_IMAGE_SIZES" = Some v ->
  exists l, v = VTuple l.
Proof.
  intros Hfresh Hv.
  assert (Hs : AssignTupleIfPresent "ED_IMAGE_SIZES" "image_sizes"
               ∈ efficientdet_body) by in_list.
  pose proof (init_lookup d w _ _ _ Hfresh efficientdet_section Hs) as H.
  simpl in H. destruct (dict_get d "efficientdet") as [sec |].
  - destruct H as [Hfrom _]. specialize (Hfrom v Hv). simpl in Hfrom.
    destruct (py_contains "image_sizes" sec) as [[|] | e]; try discriminate.
    destruct (py_getitem sec "image_sizes") as [x | e]; try discriminate.
    destruct (py_tuple x) as [t | e] eqn:T; try discriminate.
    inversion Hfrom; subst. by apply (py_tuple_is_tuple x).
  - rewrite H in Hv. discriminate.
Qed.

(** X4.  Params with none of the four section keys (a misspelt section,
    or only 'train_augmentation') are accepted in silence: [__init__]
    returns, logs its one debug line and leaves the registry alone. *)
Theorem init_without_sections (d : list (string * value)) (w : world) :
  (forall S body, (S, body) ∈ sections -> dict_get d S = None) ->
  __init__ (VDict d) w
  = (Ok tt, add_log (DEBUG, Fmt "Loading params into constants: " (VDict d)
                              EmptyString) w).
Proof.
  intros Hnone.
  assert (H1 : dict_get d "data_prep" = None) by (eapply Hnone; in_list).
  assert (H2 : dict_get d "train" = None) by (eapply Hnone; in_list).
  assert (H3 : dict_get d "inference" = None) by (eapply Hnone; in_list).
  assert (H4 : dict_get d "efficientdet" = None) by (eapply Hnone; in_list).
  unfold __init__, bind, lift, ret, logger. simpl.
  rewrite H1, H2, H3, H4. simpl.
  by destruct (dict_get d "train_augmentation").
Qed.

End ConfigMoreTheorems.

Lemma init_missing_required_key_raises_witness :
  ("train", PipelineConfig.train_body) ∈ PipelineConfig.sections /\
  dict_get [("train", VDict [("model_name", VStr "efficientdet")])] "train"
  = Some (VDict [("model_name", VStr "efficientdet")]) /\
  PipelineConfig.Assign "TRAIN_EARLY_STOPPING" "early_stopping"
    ∈ PipelineConfig.train_body /\
  dict_get [("model_name", VStr "efficientdet")] "early_stopping" = None /\
  exists e,
    fst (PipelineConfig.__init__
           (VDict [("train", VDict [("model_name", VStr "efficientdet")])])
           fresh_world) = Raise e.
Proof.
  assert (H1 : ("train", PipelineConfig.train_body) ∈ PipelineConfig.sections)
    by in_list.
  assert (H3 : PipelineConfig.Assign "TRAIN_EARLY_STOPPING" "early_stopping"
               ∈ PipelineConfig.train_body) by in_list.
  split; [exact H1 |]. split; [reflexivity |]. split; [exact H3 |].
  split; [reflexivity |].
  exact (init_missing_required_key_raises
           [("train", VDict [("model_name", VStr "efficientdet")])]
           [("model_name", VStr "efficientdet")] fresh_world "train"
           PipelineConfig.train_body "TRAIN_EARLY_STOPPING" "early_stopping"
           H1 eq_refl H3 eq_refl).
Defined.

Lemma init_not_repeatable_witness :
  let w1 := snd (PipelineConfig.__init__ (VDict demo_config) fresh_world) in
  PipelineConfig.__init__ (VDict demo_config) fresh_world = (Ok tt, w1) /\
  consts fresh_world !! "ANCHOR_BOX_SCALES" = None /\
  consts w1 !! "ANCHOR_BOX_SCALES" = Some VNone /\
  (exists e, fst (PipelineConfig.__init__ (VDict demo_config) w1) = Raise e) /\
  consts (snd (PipelineConfig.__init__ (VDict demo_config) w1)) = consts w1.
Proof.
  intros w1.
  assert (H1 : PipelineConfig.__init__ (VDict demo_config) fresh_world
               = (Ok tt, w1)) by reflexivity.
  assert (H3 : consts w1 !! "ANCHOR_BOX_SCALES" = Some VNone) by reflexivity.
  split; [exact H1 |]. split; [reflexivity |]. split; [exact H3 |].
  exact (init_not_repeatable demo_config fresh_world w1 "ANCHOR_BOX_SCALES"
           VNone H1 eq_refl H3).
Defined.

Lemma image_sizes_is_a_tuple_witness :
  (forall n, n ∈ PipelineConfig.all_names -> consts fresh_world !! n = None) /\
  consts (snd (PipelineConfig.__init__ (VDict demo_config) fresh_world))
    !! "ED_IMAGE_SIZES" = Some (VTuple [VInt 512; VInt 640]) /\
  exists l, VTuple [VInt 512; VInt 640] = VTuple l.
Proof.
  assert (Hfresh : forall n, n ∈ PipelineConfig.all_names ->
                             consts fresh_world !! n = None).
  { intros n _. apply lookup_empty. }
  split; [exact Hfresh |]. split; [reflexivity |].
  exact (image_sizes_is_a_tuple demo_config fresh_world _ Hfresh eq_refl).
Defined.

Lemma init_without_sections_witness :
  let d := [("data-prep", VDict []); ("train_augmentation", VDict [])] in
  (forall S body, (S, body) ∈ PipelineConfig.sections -> dict_get d S = None) /\
  PipelineConfig.__init__ (VDict d) fresh_world
  = (Ok tt, add_log (DEBUG, Fmt "Loading params into constants: " (VDict d)
                              EmptyString) fresh_world).
Proof.
  intros d.
  assert (H : forall S body, (S, body) ∈ PipelineConfig.sections ->
                             dict_get d S = None).
  { intros S body Hin. apply list_elem_of_In in Hin. simpl in Hin.
    destruct Hin as [Hin | [Hin | [Hin | [Hin | []]]]]; inversion Hin;
      reflexivity. }
  split; [exact H |]. exact (init_without_sections d fresh_world H).
Defined.

(* ===================================================================== *)
(** * More on the annotation converter                                      *)
(* ===================================================================== *)

Section AnnotationMore.
Context {E : Externals}.
Import EfficientDetPipeline AnnotationSpec.




(** X6.  The path of the combined annotations file is computed before
    anything else, also when a DataFrame is passed: without
    [INTERIM_DATA_PATH], or without [COMBINED_ANNOTATIONS_FILENAME], every
    call raises [AttributeError] and does nothing. *)
Theorem generate_annotations_needs_annotation_path
    (w : world) (base_filename : string) (annotations : option DataFrame) :
  (consts w !! "INTERIM_DATA_PATH" = None ->
   generate_annotations base_filename annotations w
   = (Raise (AttributeError "INTERIM_DATA_PATH"), w)) /\
  (is_Some (consts w !! "INTERIM_DATA_PATH") ->
   consts w !! "COMBINED_ANNOTATIONS_FILENAME" = None ->
   generate_annotations base_filename annotations w
   = (Raise (AttributeError "COMBINED_ANNOTATIONS_FILENAME"), w)).
Proof.
  split.
  - intros Hi. unfold generate_annotations, bind, pconst.getattr. by rewrite Hi.
  - intros [v Hi] Hc. unfold generate_annotations, bind, pconst.getattr.
    by rewrite Hi, Hc.
Qed.

(** X7.  Converting the same DataFrame again changes nothing: the second
    call returns and leaves the world the first call made. *)
Theorem generate_annotations_idempotent
    (w : world) (base_filename : string) (raw : value)
    (annot_filepath out : string) (annotations : DataFrame)
    (csv_rows : list (list value)) :
  configured w base_filename raw annot_filepath out ->
  writable out = true ->
  Forall2 (fun annotation row => annotation_row raw annotation = Some row)
          (iterrows annotations) csv_rows ->
  let w1 := snd (generate_annotations base_filename (Some annotations) w) in
  generate_annotations base_filename (Some annotations) w1 = (Ok tt, w1).
Proof.
  intros Hcfg Hw Hrows w1. subst w1.
  rewrite (generate_annotations_writes w base_filename raw annot_filepath out
             annotations csv_rows Hcfg Hw Hrows). simpl.
  assert (Hcfg1 : configured
                    (set_files (<[out := CsvFile None csv_rows]> (files w)) w)
                    base_filename raw annot_filepath out).
  { destruct Hcfg as [H1 H2 H3]. by split. }
  rewrite (generate_annotations_writes _ base_filename raw annot_filepath out
             annotations csv_rows Hcfg1 Hw Hrows).
  simpl. unfold set_files. simpl. by rewrite insert_insert_eq.
Qed.

(** X8.  Without a DataFrame the call reads the combined annotations file
    and goes on as if the parsed DataFrame had been passed; when pandas
    rejects the file the call raises that error and does nothing. *)
Theorem generate_annotations_reads_combined_file
    (w : world) (base_filename : string) (interim combined : value)
    (annot_filepath : string) (f : file) :
  consts w !! "INTERIM_DATA_PATH" = Some interim ->
  consts w !! "COMBINED_ANNOTATIONS_FILENAME" = Some combined ->
  Path interim combined = Ok annot_filepath ->
  files w !! annot_filepath = Some f ->
  generate_annotations base_filename None w
  = match pd_read_csv f with
    | Ok annotations => generate_annotations base_filename (Some annotations) w
    | Raise e => (Raise e, w)
    end.
Proof.
  intros Hi Hc Hap Hf.
  unfold generate_annotations, bind, lift, ret, pconst.getattr, path_exists,
    read_csv.
  rewrite Hi, Hc, Hap, Hf. simpl. rewrite ?Hf.
  by destruct (pd_read_csv f).
Qed.

Lemma split_head_dot s t : split_head (s +:+ "." +:+ t) = split_head s.
Proof.
  induction s as [| c r IH]; simpl; [done |].
  destruct (Ascii.eqb c "."); [done |]. by rewrite IH.
Qed.

(** X9.  Of [base_filename] only the part before its first dot is used:
    two names that agree up to their first dot give the same call, so they
    write the same output file. *)
Theorem generate_annotations_uses_stem
    (stem t u : string) (annotations : option DataFrame) (w : world) :
  generate_annotations (stem +:+ "." +:+ t) annotations w
  = generate_annotations (stem +:+ "." +:+ u) annotations w.
Proof. unfold generate_annotations. by rewrite !split_head_dot. Qed.

End AnnotationMore.


Lemma generate_annotations_needs_annotation_path_witness :
  consts fresh_world !! "INTERIM_DATA_PATH" = None /\
  EfficientDetPipeline.generate_annotations (E := demo_externals) "train.csv"
    (Some demo_annotations) fresh_world
  = (Raise (AttributeError "INTERIM_DATA_PATH"), fresh_world).
Proof.
  split; [reflexivity |].
  exact (proj1 (generate_annotations_needs_annotation_path (E := demo_externals)
                  fresh_world "train.csv" (Some demo_annotations)) eq_refl).
Defined.

Lemma generate_annotations_idempotent_witness :
  AnnotationSpec.configured (E := demo_externals) demo_world "train.csv"
    (VStr "raw") "interim/annotations_all.csv"
    "processed/train_efficientdet_b0.csv" /\
  writable (Externals := demo_externals) "processed/train_efficientdet_b0.csv"
  = true /\
  Forall2 (fun annotation row =>
             AnnotationSpec.annotation_row (E := demo_externals) (VStr "raw")
               annotation = Some row)
          (iterrows demo_annotations) demo_csv_rows /\
  let w1 := snd (EfficientDetPipeline.generate_annotations (E := demo_externals)
                   "train.csv" (Some demo_annotations) demo_world) in
  EfficientDetPipeline.generate_annotations (E := demo_externals) "train.csv"
    (Some demo_annotations) w1 = (Ok tt, w1).
Proof.
  split; [exact demo_configured |]. split; [reflexivity |].
  split; [exact demo_rows_convert |].
  exact (generate_annotations_idempotent (E := demo_externals) demo_world
           "train.csv" (VStr "raw") "interim/annotations_all.csv"
           "processed/train_efficientdet_b0.csv" demo_annotations demo_csv_rows
           demo_configured eq_refl demo_rows_convert).
Defined.

Lemma generate_annotations_reads_combined_file_witness :
  consts demo_world_with_annotations !! "INTERIM_DATA_PATH"
  = Some (VStr "interim") /\
  consts demo_world_with_annotations !! "COMBINED_ANNOTATIONS_FILENAME"
  = Some (VStr "annotations_all.csv") /\
  Path (E := demo_externals) (VStr "interim") (VStr "annotations_all.csv")
  = Ok "interim/annotations_all.csv" /\
  files demo_world_with_annotations !! "interim/annotations_all.csv"
  = Some (CsvFile (Some annotation_columns) (rows demo_annotations)) /\
  EfficientDetPipeline.generate_annotations (E := demo_externals) "train.csv"
    None demo_world_with_annotations
  = EfficientDetPipeline.generate_annotations (E := demo_externals) "train.csv"
      (Some demo_annotations) demo_world_with_annotations.
Proof.
  do 4 (split; [reflexivity |]).
  exact (generate_annotations_reads_combined_file (E := demo_externals)
           demo_world_with_annotations "train.csv" (VStr "interim")
           (VStr "annotations_all.csv") "interim/annotations_all.csv"
           (CsvFile (Some annotation_columns) (rows demo_annotations))
           eq_refl eq_refl eq_refl eq_refl).
Defined.

(* ===================================================================== *)
(** * From the configuration to the converter                               *)
(* ===================================================================== *)

Section ConfigToConverter.
Context {E : Externals}.
Import PipelineConfig ConfigSpec ConfigFacts EfficientDetPipeline AnnotationSpec.

Lemma data_prep_section : ("data_prep", data_prep_body) ∈ sections.
Proof. in_list. Qed.

(** After a run of [__init__] that returned, a constant assigned without a
    guard holds its section's entry. *)
Lemma init_binds_entry d w w' S body sec name key v :
  (forall n, n ∈ all_names -> consts w !! n = None) ->
  __init__ (VDict d) w = (Ok tt, w') ->
  (S, body) ∈ sections -> dict_get d S = Some (VDict sec) ->
  (Assign name key ∈ body \/ AssignIfPresent name key ∈ body) ->
  dict_get sec key = Some v ->
  consts w' !! name = Some v.
Proof.
  intros Hfresh Hrun Hsb Hsec Hs Hk.
  destruct Hs as [Hs | Hs].
  - pose proof (init_lookup d w S body _ Hfresh Hsb Hs) as H. simpl in H.
    rewrite Hsec, Hrun in H. simpl in H. destruct H as [_ H].
    destruct (H eq_refl) as [Heq _]. by rewrite Hk in Heq.
  - pose proof (init_lookup d w S body _ Hfresh Hsb Hs) as H. simpl in H.
    rewrite Hsec, Hrun in H. simpl in H. destruct H as [_ H].
    destruct (H eq_refl) as [Heq _]. rewrite Hk in Heq.
    rewrite bool_decide_eq_true_2 in Heq by (by eexists). done.
Qed.

(** X10.  The two modules fit together: after [__init__] has returned on
    params whose [data_prep] section gives the three directories and the
    name of the combined file, and whose [efficientdet] section gives
    'train_backbone', [generate_annotations] finds every constant it reads
    and writes the converted rows to
    PROCESSED_DATA_PATH/<stem>_efficientdet_b<train_backbone>.csv. *)
Theorem init_then_generate_annotations
    (d dp ed : list (string * value)) (w w' : world)
    (interim combined raw processed backbone : value)
    (base_filename annot_filepath out : string)
    (annotations : DataFrame) (csv_rows : list (list value)) :
  (forall n, n ∈ all_names -> consts w !! n = None) ->
  __init__ (VDict d) w = (Ok tt, w') ->
  dict_get d "data_prep" = Some (VDict dp) ->
  dict_get dp "interim_data_path" = Some interim ->
  dict_get dp "combined_annotations_filename" = Some combined ->
  dict_get dp "raw_data_path" = Some raw ->
  dict_get dp "processed_data_path" = Some processed ->
  dict_get d "efficientdet" = Some (VDict ed) ->
  dict_get ed "train_backbone" = Some backbone ->
  Path interim combined = Ok annot_filepath ->
  Path processed (output_name base_filename backbone) = Ok out ->
  writable out = true ->
  Forall2 (fun annotation row => annotation_row raw annotation = Some row)
          (iterrows annotations) csv_rows ->
  let res := generate_annotations base_filename (Some annotations) w' in
  fst res = Ok tt /\
  files (snd res) = <[out := CsvFile None csv_rows]> (files w).
Proof.
  intros Hfresh Hrun Hdp Hi Hc Hr Hp Hed Hb Hap Hout Hw Hrows res. subst res.
  assert (Hfiles : files w' = files w).
  { pose proof (init_effect (VDict d) w) as H. rewrite Hrun in H. apply H. }
  assert (Hcfg : configured w' base_filename raw annot_filepath out).
  { split.
    - exists interim, combined. split; [| split; [| done]].
      + eapply (init_binds_entry d w w' _ _ dp); eauto using data_prep_section.
        left. in_list.
      + eapply (init_binds_entry d w w' _ _ dp); eauto using data_prep_section.
        left. in_list.
    - eapply (init_binds_entry d w w' _ _ dp); eauto using data_prep_section.
      left. in_list.
    - exists processed, backbone. split; [| split; [| done]].
      + eapply (init_binds_entry d w w' _ _ dp); eauto using data_prep_section.
        left. in_list.
      + eapply (init_binds_entry d w w' _ _ ed); eauto using efficientdet_section.
        right. in_list. }
  rewrite (generate_annotations_writes w' base_filename raw annot_filepath out
             annotations csv_rows Hcfg Hw Hrows).
  simpl. by rewrite Hfiles.
Qed.

(** X11.  The converter depends on the [efficientdet] section: after
    [__init__] has returned on params with a [data_prep] section but no
    [efficientdet] section, a call whose rows all convert raises
    [AttributeError] on [ED_TRAIN_BACKBONE] when it comes to name the
    output file, and writes nothing. *)
Theorem generate_annotations_without_train_backbone
    (d dp : list (string * value)) (w w' : world)
    (interim combined raw : value) (base_filename annot_filepath : string)
    (annotations : DataFrame) (csv_rows : list (list value)) :
  (forall n, n ∈ all_names -> consts w !! n = None) ->
  __init__ (VDict d) w = (Ok tt, w') ->
  dict_get d "data_prep" = Some (VDict dp) ->
  dict_get dp "interim_data_path" = Some interim ->
  dict_get dp "combined_annotations_filename" = Some combined ->
  dict_get dp "raw_data_path" = Some raw ->
  dict_get d "efficientdet" = None ->
  Path interim combined = Ok annot_filepath ->
  Forall2 (fun annotation row => annotation_row raw annotation = Some row)
          (iterrows annotations) csv_rows ->
  generate_annotations base_filename (Some annotations) w'
  = (Raise (AttributeError "ED_TRAIN_BACKBONE"), w').
Proof.
  intros Hfresh Hrun Hdp Hi Hc Hr Hed Hap Hrows.
  assert (H1 : consts w' !! "INTERIM_DATA_PATH" = Some interim).
  { eapply (init_binds_entry d w w' _ _ dp); eauto using data_prep_section.
    left. in_list. }
  assert (H2 : consts w' !! "COMBINED_ANNOTATIONS_FILENAME" = Some combined).
  { eapply (init_binds_entry d w w' _ _ dp); eauto using data_prep_section.
    left. in_list. }
  assert (H3 : consts w' !! "RAW_DATA_PATH" = Some raw).
  { eapply (init_binds_entry d w w' _ _ dp); eauto using data_prep_section.
    left. in_list. }
  assert (H4 : exists processed, consts w' !! "PROCESSED_DATA_PATH" = Some processed).
  { assert (Hs : Assign "PROCESSED_DATA_PATH" "processed_data_path" ∈ data_prep_body)
      by in_list.
    pose proof (init_lookup d w _ _ _ Hfresh data_prep_section Hs) as H.
    simpl in H. rewrite Hdp, Hrun in H. simpl in H. destruct H as [_ H].
    destruct (H eq_refl) as [_ Hsome]. apply Hsome. by left. }
  assert (H5 : consts w' !! "ED_TRAIN_BACKBONE" = None).
  { assert (Hs : AssignIfPresent "ED_TRAIN_BACKBONE" "train_backbone"
                 ∈ efficientdet_body) by in_list.
    pose proof (init_lookup d w _ _ _ Hfresh efficientdet_section Hs) as H.
    simpl in H. rewrite Hed, Hrun in H. exact H. }
  destruct H4 as [processed H4].
  unfold generate_annotations, bind, lift, ret, pconst.getattr.
  rewrite H1, H2, Hap.
  rewrite (convert_rows_ok w' raw _ csv_rows [] H3 Hrows). simpl.
  by rewrite H4, H5.
Qed.

End ConfigToConverter.

(* ===================================================================== *)
(** * More on the inference wrapper                                         *)
(* ===================================================================== *)

Section InferenceMore.
Context {E : Externals}.
Import PeekingDuckPipeline InferenceSpec InferenceRun.

Lemma after_run_nil b p acc w : after_run b p acc [] w = w.
Proof. unfold after_run. simpl. rewrite app_nil_r. by destruct w. Qed.

(** The loop of [predict_custom] after a run of steps that went well goes
    on from the records, the table and the world they left. *)
Lemma predict_custom_loop_prefix opt output_path b p steps rest :
  py_truthy opt = Ok b ->
  forall self w n n' acc df0,
  model_node self = Some n ->
  steps_ok (files w) steps ->
  node_outputs n (map model_input steps) = Some (map st_out steps, n') ->
  save_ok b output_path p steps ->
  predict_custom_loop opt output_path (map st_path steps ++ rest) acc df0
                      (self, w)
  = predict_custom_loop opt output_path rest (acc ++ map record_of steps)
      (match steps with
       | [] => df0
       | _ :: _ => Some (pd_DataFrame (acc ++ map record_of steps))
       end)
      (with_model_node (Some n') self, after_run b p acc steps w).
Proof.
  intros Ht. induction steps as [| s more IH];
    intros self w n n' acc df0 Hn Hok Hruns Hsave.
  - simpl in Hruns. inversion Hruns; subst n'.
    rewrite after_run_nil, with_model_node_same by done.
    simpl. by rewrite app_nil_r.
  - apply Forall_cons in Hok as [(Hload & Hb & Hl) Hok].
    simpl in Hruns.
    destruct (node_run n (model_input s)) as [[out | e] n1] eqn:Hrun;
      [| discriminate].
    destruct (node_outputs n1 (map model_input more)) as [[os n2] |] eqn:Hmore;
      [| discriminate].
    inversion Hruns; subst out os n2.
    assert (Hsave1 : b = true -> fspath output_path = Ok p /\ writable p = true).
    { intros Hbt. destruct (Hsave Hbt) as (? & ? & ?). done. }
    assert (Hsave2 : save_ok b output_path p more).
    { intros Hbt. destruct (Hsave Hbt) as (? & ? & Hne).
      apply Forall_cons in Hne as [_ Hne]. done. }
    assert (Hok1 : steps_ok (files (after_run b p acc [s] w)) more).
    { unfold after_run. destruct b; simpl; [| done].
      destruct (Hsave eq_refl) as (_ & _ & Hne).
      apply Forall_cons in Hne as [_ Hne]. by apply steps_ok_insert. }
    pose proof (IH (with_model_node (Some n1) self) (after_run b p acc [s] w)
                   n1 n' (acc ++ [record_of s])
                   (Some (pd_DataFrame (acc ++ [record_of s])))
                   eq_refl Hok1 Hmore Hsave2) as HIH.
    cbn [map app]. cbn [predict_custom_loop].
    unfold bind at 1. unfold on_world at 1. cbn [fst snd].
    rewrite (cv2_imread_load w _ _ Hload). cbv beta iota.
    unfold bind at 1. unfold lift at 1. cbn [cv2_cvtColor_BGR2RGB].
    cbv beta iota. unfold bind at 1.
    rewrite (infer_one_ok opt output_path b p self w n n1 s acc
               Hn Hrun Hb Hl Ht Hsave1).
    cbv beta iota. cbn [fst snd]. rewrite HIH.
    assert (Hacc : (acc ++ [record_of s]) ++ map record_of more
                   = acc ++ record_of s :: map record_of more)
      by (by rewrite <- app_assoc).
    assert (Hworld : after_run b p (acc ++ [record_of s]) more
                       (after_run b p acc [s] w)
                     = after_run b p acc (s :: more) w).
    { unfold after_run. destruct more as [| s2 more']; simpl.
      - destruct b; simpl; by rewrite app_nil_r.
      - destruct b; simpl.
        + unfold set_files. simpl. rewrite insert_insert_eq.
          by rewrite <- !app_assoc.
        + by rewrite <- !app_assoc. }
    rewrite Hworld. cbn [map]. rewrite Hacc.
    by destruct more.
Qed.

Lemma load_image_insert_csv fs p h rs path :
  load_image fs path = None ->
  load_image (<[p := CsvFile h rs]> fs) path = None.
Proof.
  unfold load_image. destruct path; try done;
    (destruct (decide (p = s)) as [-> | Hne];
     [by rewrite lookup_insert_eq | by rewrite lookup_insert_ne]).
Qed.

Lemma cv2_imread_none w path q :
  fspath path = Ok q -> load_image (files w) path = None ->
  cv2_imread path w = (Ok None, w).
Proof.
  unfold load_image, cv2_imread. destruct path; try discriminate; intros _;
    by destruct (files w !! s) as [[h rs | i | c] |].
Qed.

(** X12.  An image that cannot be read stops [predict_custom] with
    [cv2.error], and what was done before it stays: the node has run once
    for each earlier image and, when saving is on, the file holds the
    table of the earlier images. *)
Theorem predict_custom_unreadable_image
    (steps : list step) (bad : value) (q : string) (rest : list value)
    (save_output_option output_path : value) (b : bool)
    (p : string) (self : pipeline) (w : world) (n n' : node) :
  py_truthy save_output_option = Ok b ->
  model_node self = Some n ->
  steps_ok (files w) steps ->
  node_outputs n (map model_input steps) = Some (map st_out steps, n') ->
  save_ok b output_path p steps ->
  fspath bad = Ok q ->
  load_image (files w) bad = None ->
  let res := predict_custom (map st_path steps ++ bad :: rest)
                            save_output_option output_path (self, w) in
  fst res = Raise CvError /\
  node_calls (snd (snd res)) = node_calls w ++ map model_input steps /\
  files (snd (snd res))
  = match steps with
    | [] => files w
    | _ :: _ => if b then <[p := csv_of (table_of steps)]> (files w)
                else files w
    end.
Proof.
  intros Ht Hn Hok Hruns Hsave Hq Hbad res. subst res.
  assert (Hres : predict_custom (map st_path steps ++ bad :: rest)
                   save_output_option output_path (self, w)
                 = (Raise CvError,
                    (with_model_node (Some n') self, after_run b p [] steps w))).
  { unfold predict_custom. unfold bind at 1.
    rewrite (predict_custom_loop_prefix save_output_option output_path b p
               steps (bad :: rest) Ht self w n n' [] None Hn Hok Hruns Hsave).
    assert (Hbad' : load_image (files (after_run b p [] steps w)) bad = None).
    { unfold after_run. destruct steps; [done |]. destruct b; [| done].
      simpl. by apply load_image_insert_csv. }
    cbn [predict_custom_loop]. unfold bind at 1. unfold on_world at 1.
    cbn [fst snd].
    rewrite (cv2_imread_none _ bad q Hq Hbad'). cbv beta iota.
    unfold bind at 1. unfold lift at 1. cbn [cv2_cvtColor_BGR2RGB].
    cbv beta iota. reflexivity. }
  rewrite Hres. cbn [fst snd]. split; [done |]. unfold after_run.
  destruct steps as [| s more]; simpl.
  - done.
  - destruct b; simpl; [| done]. split; [done |].
    change (record_of s :: map record_of more)
      with (map record_of (s :: more)).
    by rewrite pd_DataFrame_records.
Qed.

(** X13.  A pipeline without a model node cannot predict: the first image
    is read, then the call raises [AttributeError]; nothing is changed. *)
Theorem predict_custom_without_model_node
    (path : value) (img : image) (rest : list value)
    (save_output_option output_path : value) (self : pipeline) (w : world) :
  model_node self = None ->
  load_image (files w) path = Some img ->
  predict_custom (path :: rest) save_output_option output_path (self, w)
  = (Raise (AttributeError "run"), (self, w)).
Proof.
  intros Hn Hload. unfold predict_custom. unfold bind at 1.
  cbn [predict_custom_loop]. unfold bind at 1. unfold on_world at 1.
  cbn [fst snd]. rewrite (cv2_imread_load w _ _ Hload). cbv beta iota.
  unfold bind at 1. unfold lift at 1. cbn [cv2_cvtColor_BGR2RGB].
  cbv beta iota. unfold bind at 1.
  unfold infer_one. unfold bind at 1. unfold model_node_run. cbn [fst snd].
  by rewrite Hn.
Qed.

End InferenceMore.

Section InferenceMore2.
Context {E : Externals}.
Import PeekingDuckPipeline InferenceSpec InferenceRun.

Lemma get_image_list_loop_spec names : forall acc w,
  let paths := map (path_join INFERENCE_INPUT_PATH) names in
  get_image_list_loop names acc w
  = (Ok (acc ++ map VPath (filter (fun p => is_Some (files w !! p)) paths)),
     World (consts w) (const_writes w) (files w)
           (log w ++ map (fun p => (ERROR,
                                    Text ("Invalid image file path: " +:+ p)))
                         (filter (fun p => ~ is_Some (files w !! p)) paths))
           (node_calls w)).
Proof.
  induction names as [| f rest IH]; intros acc w paths; subst paths.
  - simpl. unfold ret. rewrite !app_nil_r. by destruct w.
  - cbn [get_image_list_loop map]. unfold bind at 1. unfold lift at 1.
    cbn [Path fspath]. unfold bind at 1. unfold path_exists at 1.
    set (p := path_join INFERENCE_INPUT_PATH f).
    destruct (files w !! p) as [x |] eqn:Hp.
    + rewrite bool_decide_eq_true_2 by (by eexists).
      rewrite IH. cbv zeta.
      rewrite filter_cons_True by (by eexists).
      rewrite filter_cons_False by (intros Hn; apply Hn; by eexists).
      simpl. by rewrite <- app_assoc.
    + rewrite bool_decide_eq_false_2 by (by intros [? ?]).
      unfold bind at 1. unfold logger at 1. rewrite IH. cbv zeta. simpl.
      rewrite filter_cons_False by (intros [? ?]; congruence).
      rewrite filter_cons_True by (intros [? ?]; congruence).
      simpl. by rewrite <- app_assoc.
Qed.

(** X14.  [get_image_list] returns, in the order of the directory
    listing, a [Path] for each listed name that is a file, and logs one
    error for each that is not; it changes nothing else. *)
Theorem get_image_list_keeps_existing_files (w : world) (names : list string) :
  os_listdir (files w) INFERENCE_INPUT_PATH = Ok names ->
  let paths := map (path_join INFERENCE_INPUT_PATH) names in
  let res := get_image_list w in
  fst res = Ok (map VPath (filter (fun p => is_Some (files w !! p)) paths)) /\
  files (snd res) = files w /\
  log (snd res)
  = log w ++ map (fun p => (ERROR, Text ("Invalid image file path: " +:+ p)))
                 (filter (fun p => ~ is_Some (files w !! p)) paths).
Proof.
  intros Hls paths res. subst res paths. unfold get_image_list.
  rewrite Hls. rewrite get_image_list_loop_spec. done.
Qed.

Lemma is_str_false k v : v <> VStr k -> is_str k v = false.
Proof.
  intros Hne. destruct v; simpl; try done.
  apply String.eqb_neq. congruence.
Qed.

Lemma set_model_node_returns st :
  fst (set_model_node st) = Ok tt ->
  model_node_type (fst st) = VStr "life3_effdet".
Proof.
  destruct st as [self w].
  unfold set_model_node, bind, get_self, lift, modify_self, on_world, raise.
  simpl.
  destruct (is_str "effdet" (model_node_type self)) eqn:He; simpl.
  - destruct (efficientdet_Node (model_config self)) as [n | e]; simpl;
      [| discriminate].
    destruct (is_str "life3_effdet" (model_node_type self)) eqn:Hl; simpl;
      [| discriminate].
    intros _. by apply is_str_true.
  - destruct (is_str "life3_effdet" (model_node_type self)) eqn:Hl; simpl;
      [| discriminate].
    intros _. by apply is_str_true.
Qed.

(** X15.  The constructor.  With no node types (the defaults) it returns
    an object without nodes and touches nothing; with a model node type
    other than "life3_effdet" it raises, so no object exists; with
    "life3_effdet" and "draw_bbox" it returns the object holding both
    nodes, having logged one line. *)
Theorem new_pipeline_cases
    (node_type node_cfg draw_type draw_cfg dataset : value) (w : world) :
  (py_truthy node_type = Ok false ->
   py_truthy draw_type = Ok false ->
   __init__ node_type node_cfg draw_type draw_cfg dataset w
   = (Ok (mkPipeline node_type node_cfg draw_type draw_cfg dataset None None),
      w)) /\
  (py_truthy node_type = Ok true ->
   node_type <> VStr "life3_effdet" ->
   exists e, fst (__init__ node_type node_cfg draw_type draw_cfg dataset w)
             = Raise e) /\
  (forall n m,
     node_type = VStr "life3_effdet" ->
     draw_type = VStr "draw_bbox" ->
     life3_efficientdet_Node node_cfg = Ok n ->
     bbox_Node draw_cfg = Ok m ->
     __init__ node_type node_cfg draw_type draw_cfg dataset w
     = (Ok (mkPipeline node_type node_cfg draw_type draw_cfg dataset
                       (Some n) (Some m)),
        add_log (INFO, Text "Instantiate Model Node.") w)).
Proof.
  split; [| split].
  - intros Ht Hd. unfold __init__, bind, lift, ret. by rewrite Ht, Hd.
  - intros Ht Hne. unfold __init__. unfold bind at 1. unfold lift at 1.
    rewrite Ht. unfold bind at 1.
    match goal with
    | |- context [set_model_node ?st] =>
        pose proof (set_model_node_returns st) as Hret;
        destruct (set_model_node st) as [[[] | e] st']
    end.
    + exfalso. apply Hne. by apply Hret.
    + by exists e.
  - intros n m -> -> Hn Hm.
    unfold __init__.
    cbv [bind lift ret set_model_node set_draw_node get_self modify_self
         on_world raise logger].
    simpl. rewrite Hn. simpl. rewrite Hm. reflexivity.
Qed.

(** X16.  A node type that is not known is rejected and the object is
    left as it was: [set_model_node] with a type other than "effdet" and
    "life3_effdet", and [set_draw_node] with a type other than "draw_bbox",
    log one error and raise [ValueError]. *)
Theorem unknown_node_type_rejected (self : pipeline) (w : world) :
  (model_node_type self <> VStr "effdet" ->
   model_node_type self <> VStr "life3_effdet" ->
   set_model_node (self, w)
   = (Raise (ValueError "Unsupported model node type specified!"),
      (self, add_log (ERROR, Text "Unsupported model node type specified") w))) /\
  (draw_node_type self <> VStr "draw_bbox" ->
   set_draw_node (self, w)
   = (Raise (ValueError "Unsupported draw node type specified!"),
      (self, add_log (ERROR, Text "Unsupported draw node type specified") w))).
Proof.
  split.
  - intros H1 H2.
    unfold set_model_node, bind, get_self, lift, modify_self, on_world, raise.
    simpl. rewrite (is_str_false _ _ H1). simpl.
    by rewrite (is_str_false _ _ H2).
  - intros H1.
    unfold set_draw_node, bind, get_self, lift, modify_self, on_world, raise.
    simpl. by rewrite (is_str_false _ _ H1).
Qed.

(** X17.  What [save_predict_output] writes is what [read_predict_output]
    hands to the parser: reading the path back gives pandas' reading of
    the saved header and rows, and changes nothing. *)
Theorem save_then_read_predict_output
    (output_df : DataFrame) (output_path : value) (p : string)
    (st : pipeline * world) :
  fspath output_path = Ok p ->
  writable p = true ->
  let st1 := snd (save_predict_output output_df output_path st) in
  fst (save_predict_output output_df output_path st) = Ok tt /\
  read_predict_output output_path st1
  = (pd_read_csv (CsvFile (Some (columns output_df)) (rows output_df)), st1).
Proof.
  intros Hp Hw st1. subst st1. destruct st as [self w].
  unfold save_predict_output, read_predict_output, on_world. simpl.
  rewrite (to_csv_ok output_df output_path p w Hp Hw). simpl.
  split; [done |]. unfold read_csv. rewrite Hp. simpl.
  by rewrite lookup_insert_eq.
Qed.

End InferenceMore2.

Section InferenceFrames.
Context {E : Externals}.
Import PeekingDuckPipeline InferenceSpec InferenceRun.

Lemma visualise_loop_beside_draw num i rs :
  keeps beside_draw (visualise_loop num i rs).
Proof.
  revert i. induction rs as [| row rest IH]; intros i; simpl.
  - apply keeps_ret.
  - repeat first
      [ apply IH | apply keeps_lift
      | apply keeps_bind; [| intros ?] ].
    + intros [self w]. unfold on_world, cv2_imread. simpl. by destruct a.
    + intros [self w]. unfold draw_node_run. simpl.
      destruct (draw_node self) as [n |]; [| done].
      by destruct (node_run n _).
Qed.

(** X18.  [visualise] only draws: whatever the table, and whether it
    returns or raises, the world (files, log, constants, recorded model
    calls) and the model node are as before. *)
Theorem visualise_leaves_world (pred_outputs_df : DataFrame)
    (st : pipeline * world) :
  snd (snd (visualise pred_outputs_df st)) = snd st /\
  model_node (fst (snd (visualise pred_outputs_df st))) = model_node (fst st).
Proof.
  assert (H : keeps beside_draw (visualise pred_outputs_df)).
  { unfold visualise. apply keeps_bind; [apply keeps_lift | intros _].
    apply visualise_loop_beside_draw. }
  specialize (H st). unfold beside_draw in H. by inversion H.
Qed.






End InferenceFrames.

Lemma demo_fresh :
  forall n, n ∈ PipelineConfig.all_names -> consts fresh_world !! n = None.
Proof. intros n _. apply lookup_empty. Defined.

Lemma init_then_generate_annotations_witness :
  let w' := snd (PipelineConfig.__init__ (VDict demo_full_config) fresh_world) in
  (forall n, n ∈ PipelineConfig.all_names -> consts fresh_world !! n = None) /\
  PipelineConfig.__init__ (VDict demo_full_config) fresh_world = (Ok tt, w') /\
  dict_get demo_full_config "data_prep" = Some (VDict demo_data_prep) /\
  dict_get demo_data_prep "interim_data_path" = Some (VStr "interim") /\
  dict_get demo_data_prep "combined_annotations_filename"
  = Some (VStr "annotations_all.csv") /\
  dict_get demo_data_prep "raw_data_path" = Some (VStr "raw") /\
  dict_get demo_data_prep "processed_data_path" = Some (VStr "processed") /\
  dict_get demo_full_config "efficientdet"
  = Some (VDict [("train_backbone", VInt 0)]) /\
  let res := EfficientDetPipeline.generate_annotations (E := demo_externals)
               "train.csv" (Some demo_annotations) w' in
  fst res = Ok tt /\
  files (snd res) = <["processed/train_efficientdet_b0.csv"
                      := CsvFile None demo_csv_rows]> (files fresh_world).
Proof.
  intros w'.
  assert (H : PipelineConfig.__init__ (VDict demo_full_config) fresh_world
              = (Ok tt, w')) by (vm_compute; reflexivity).
  split; [exact demo_fresh |]. split; [exact H |].
  do 6 (split; [reflexivity |]).
  exact (init_then_generate_annotations (E := demo_externals) demo_full_config
           demo_data_prep [("train_backbone", VInt 0)] fresh_world w'
           (VStr "interim") (VStr "annotations_all.csv") (VStr "raw")
           (VStr "processed") (VInt 0) "train.csv"
           "interim/annotations_all.csv" "processed/train_efficientdet_b0.csv"
           demo_annotations demo_csv_rows
           demo_fresh H eq_refl eq_refl eq_refl eq_refl eq_refl eq_refl eq_refl
           eq_refl eq_refl eq_refl demo_rows_convert).
Defined.

Lemma generate_annotations_without_train_backbone_witness :
  let w' := snd (PipelineConfig.__init__ (VDict demo_config_without_backbone)
                   fresh_world) in
  PipelineConfig.__init__ (VDict demo_config_without_backbone) fresh_world
  = (Ok tt, w') /\
  dict_get demo_config_without_backbone "efficientdet" = None /\
  EfficientDetPipeline.generate_annotations (E := demo_externals) "train.csv"
    (Some demo_annotations) w'
  = (Raise (AttributeError "ED_TRAIN_BACKBONE"), w').
Proof.
  intros w'.
  assert (H : PipelineConfig.__init__ (VDict demo_config_without_backbone)
                fresh_world = (Ok tt, w')) by (vm_compute; reflexivity).
  split; [exact H |]. split; [reflexivity |].
  exact (generate_annotations_without_train_backbone (E := demo_externals)
           demo_config_without_backbone demo_data_prep fresh_world w'
           (VStr "interim") (VStr "annotations_all.csv") (VStr "raw")
           "train.csv" "interim/annotations_all.csv" demo_annotations
           demo_csv_rows
           demo_fresh H eq_refl eq_refl eq_refl eq_refl eq_refl eq_refl
           demo_rows_convert).
Defined.

Lemma demo_first_step_ok :
  InferenceSpec.steps_ok (files demo_world) (take 1 demo_steps).
Proof. repeat constructor. Defined.

Lemma demo_first_step_save_ok :
  InferenceSpec.save_ok (E := demo_externals) true (VStr "out.csv") "out.csv"
                        (take 1 demo_steps).
Proof.
  intros _. split; [reflexivity |]. split; [reflexivity |].
  repeat constructor; discriminate.
Defined.

Lemma predict_custom_unreadable_image_witness :
  py_truthy (VBool true) = Ok true /\
  PeekingDuckPipeline.model_node demo_pipeline = Some 0 /\
  InferenceSpec.steps_ok (files demo_world) (take 1 demo_steps) /\
  InferenceSpec.node_outputs (E := demo_externals) 0
    (map InferenceSpec.model_input (take 1 demo_steps))
  = Some (map InferenceSpec.st_out (take 1 demo_steps), 1) /\
  InferenceSpec.save_ok (E := demo_externals) true (VStr "out.csv") "out.csv"
    (take 1 demo_steps) /\
  fspath (VStr "missing.jpg") = Ok "missing.jpg" /\
  InferenceSpec.load_image (files demo_world) (VStr "missing.jpg") = None /\
  let res := PeekingDuckPipeline.predict_custom (E := demo_externals)
               [VStr "a.jpg"; VStr "missing.jpg"; VStr "b.jpg"] (VBool true)
               (VStr "out.csv") (demo_pipeline, demo_world) in
  fst res = Raise CvError /\
  node_calls (snd (snd res)) = [VDict [("img", VImage [[(3, 2, 1)]])]] /\
  files (snd (snd res))
  = <["out.csv" := InferenceRun.csv_of demo_table]> (files demo_world).
Proof.
  do 2 (split; [reflexivity |]). split; [exact demo_first_step_ok |].
  split; [reflexivity |]. split; [exact demo_first_step_save_ok |].
  do 2 (split; [reflexivity |]).
  exact (predict_custom_unreadable_image (E := demo_externals)
           (take 1 demo_steps) (VStr "missing.jpg") "missing.jpg" [VStr "b.jpg"]
           (VBool true) (VStr "out.csv") true "out.csv" demo_pipeline
           demo_world 0 1 eq_refl eq_refl demo_first_step_ok eq_refl
           demo_first_step_save_ok eq_refl eq_refl).
Defined.

Lemma predict_custom_without_model_node_witness :
  PeekingDuckPipeline.model_node demo_bare_pipeline = None /\
  InferenceSpec.load_image (files demo_world) (VStr "a.jpg")
  = Some [[(1, 2, 3)]] /\
  PeekingDuckPipeline.predict_custom (E := demo_externals)
    [VStr "a.jpg"; VStr "b.jpg"] (VBool false) VNone
    (demo_bare_pipeline, demo_world)
  = (Raise (AttributeError "run"), (demo_bare_pipeline, demo_world)).
Proof.
  do 2 (split; [reflexivity |]).
  exact (predict_custom_without_model_node (E := demo_externals) (VStr "a.jpg")
           [[(1, 2, 3)]] [VStr "b.jpg"] (VBool false) VNone demo_bare_pipeline
           demo_world eq_refl eq_refl).
Defined.

Lemma get_image_list_keeps_existing_files_witness :
  os_listdir (Externals := demo_externals) (files demo_inference_world)
    INFERENCE_INPUT_PATH = Ok ["a.jpg"; "b.jpg"] /\
  let res := get_image_list (E := demo_externals) demo_inference_world in
  fst res = Ok [VPath (INFERENCE_INPUT_PATH +:+ "/a.jpg")] /\
  files (snd res) = files demo_inference_world /\
  log (snd res)
  = [(ERROR, Text ("Invalid image file path: "
                   +:+ (INFERENCE_INPUT_PATH +:+ "/b.jpg")))].
Proof.
  split; [reflexivity |].
  exact (get_image_list_keeps_existing_files (E := demo_externals)
           demo_inference_world ["a.jpg"; "b.jpg"] eq_refl).
Defined.

Lemma new_pipeline_cases_witness :
  py_truthy (VStr "effdet") = Ok true /\
  VStr "effdet" <> VStr "life3_effdet" /\
  (exists e, fst (PeekingDuckPipeline.__init__ (E := demo_externals)
                    (VStr "effdet") (VDict []) VNone VNone VNone demo_world)
             = Raise e) /\
  PeekingDuckPipeline.__init__ (E := demo_externals) (VStr "life3_effdet")
    (VDict []) (VStr "draw_bbox") (VDict []) VNone demo_world
  = (Ok (PeekingDuckPipeline.mkPipeline (E := demo_externals)
           (VStr "life3_effdet") (VDict []) (VStr "draw_bbox") (VDict []) VNone
           (Some 0) (Some 0)),
     add_log (INFO, Text "Instantiate Model Node.") demo_world).
Proof.
  assert (Hne : VStr "effdet" <> VStr "life3_effdet") by discriminate.
  split; [reflexivity |]. split; [exact Hne |]. split.
  - exact (proj1 (proj2 (new_pipeline_cases (E := demo_externals)
                           (VStr "effdet") (VDict []) VNone VNone VNone
                           demo_world)) eq_refl Hne).
  - exact (proj2 (proj2 (new_pipeline_cases (E := demo_externals)
                           (VStr "life3_effdet") (VDict []) (VStr "draw_bbox")
                           (VDict []) VNone demo_world))
             0 0 eq_refl eq_refl eq_refl eq_refl).
Defined.

Lemma unknown_node_type_rejected_witness :
  PeekingDuckPipeline.model_node_type demo_bare_pipeline <> VStr "effdet" /\
  PeekingDuckPipeline.model_node_type demo_bare_pipeline <> VStr "life3_effdet" /\
  PeekingDuckPipeline.draw_node_type demo_bare_pipeline <> VStr "draw_bbox" /\
  PeekingDuckPipeline.set_model_node (E := demo_externals)
    (demo_bare_pipeline, demo_world)
  = (Raise (ValueError "Unsupported model node type specified!"),
     (demo_bare_pipeline,
      add_log (ERROR, Text "Unsupported model node type specified") demo_world)) /\
  PeekingDuckPipeline.set_draw_node (E := demo_externals)
    (demo_bare_pipeline, demo_world)
  = (Raise (ValueError "Unsupported draw node type specified!"),
     (demo_bare_pipeline,
      add_log (ERROR, Text "Unsupported draw node type specified") demo_world)).
Proof.
  assert (H1 : PeekingDuckPipeline.model_node_type demo_bare_pipeline
               <> VStr "effdet") by discriminate.
  assert (H2 : PeekingDuckPipeline.model_node_type demo_bare_pipeline
               <> VStr "life3_effdet") by discriminate.
  assert (H3 : PeekingDuckPipeline.draw_node_type demo_bare_pipeline
               <> VStr "draw_bbox") by discriminate.
  split; [exact H1 |]. split; [exact H2 |]. split; [exact H3 |].
  destruct (unknown_node_type_rejected (E := demo_externals) demo_bare_pipeline
              demo_world) as [Hm Hd].
  split; [exact (Hm H1 H2) | exact (Hd H3)].
Defined.

Lemma save_then_read_predict_output_witness :
  fspath (VStr "out.csv") = Ok "out.csv" /\
  writable (Externals := demo_externals) "out.csv" = true /\
  let st1 := snd (PeekingDuckPipeline.save_predict_output (E := demo_externals)
                    demo_table (VStr "out.csv") (demo_pipeline, demo_world)) in
  fst (PeekingDuckPipeline.save_predict_output (E := demo_externals)
         demo_table (VStr "out.csv") (demo_pipeline, demo_world)) = Ok tt /\
  PeekingDuckPipeline.read_predict_output (E := demo_externals)
    (VStr "out.csv") st1 = (Ok demo_table, st1).
Proof.
  do 2 (split; [reflexivity |]).
  exact (save_then_read_predict_output (E := demo_externals) demo_table
           (VStr "out.csv") "out.csv" (demo_pipeline, demo_world)
           eq_refl eq_refl).
Defined.



Section ColumnsAndFrames.
Context {E : Externals}.
Import EfficientDetPipeline PeekingDuckPipeline.

Lemma convert_row_same_columns a a' w :
  (forall k, k ∈ annotation_columns -> dict_get a k = dict_get a' k) ->
  convert_row a w = convert_row a' w.
Proof.
  intros Hk. unfold convert_row, series_getitem.
  rewrite (Hk "file_name") by in_list.
  rewrite (Hk "category_name") by in_list.
  rewrite (Hk "bbox_x_min") by in_list.
  rewrite (Hk "bbox_y_min") by in_list.
  rewrite (Hk "bbox_x_max") by in_list.
  rewrite (Hk "bbox_y_max") by in_list.
  reflexivity.
Qed.

Lemma convert_rows_same_columns anns anns' : forall acc w,
  Forall2 (fun a a' => forall k, k ∈ annotation_columns ->
                                 dict_get a k = dict_get a' k) anns anns' ->
  convert_rows anns acc w = convert_rows anns' acc w.
Proof.
  intros acc w Hall. revert acc w.
  induction Hall as [| a a' rest rest' Ha Hall IH]; intros acc w; [done |].
  simpl. unfold bind. rewrite (convert_row_same_columns a a' w Ha).
  destruct (convert_row a' w) as [[row | e] w1]; [apply IH | done].
Qed.

(** X20.  Only the six named columns are read: two DataFrames whose rows
    agree on file_name, category_name and the four bbox columns (whatever
    their other columns and the order of the columns) give the same call. *)
Theorem generate_annotations_reads_six_columns
    (base_filename : string) (annotations annotations' : DataFrame) (w : world) :
  Forall2 (fun a a' => forall k, k ∈ annotation_columns ->
                                 dict_get a k = dict_get a' k)
          (iterrows annotations) (iterrows annotations') ->
  generate_annotations base_filename (Some annotations) w
  = generate_annotations base_filename (Some annotations') w.
Proof.
  intros Hall. unfold generate_annotations, bind.
  destruct (pconst.getattr "INTERIM_DATA_PATH" w) as [[i | e] w1]; [| done].
  destruct (pconst.getattr "COMBINED_ANNOTATIONS_FILENAME" w1) as [[c | e] w2];
    [| done].
  destruct (lift (Path i c) w2) as [[ap | e] w3]; [| done].
  unfold ret at 1 3. cbv beta iota.
  by rewrite (convert_rows_same_columns _ _ [] w3 Hall).
Qed.

Lemma infer_one_beside_model opt output_path img path acc :
  keeps beside_model (infer_one opt output_path img path acc).
Proof.
  intros [self w].
  unfold beside_model, infer_one, bind, lift, ret, model_node_run,
    save_predict_output, on_world. simpl.
  destruct (model_node self) as [n |]; [| done].
  destruct (node_run n _) as [[out | e] n1]; simpl; [| done].
  destruct (py_getitem out "bboxes") as [bx | e]; simpl; [| done].
  destruct (py_getitem out "bbox_labels") as [lb | e]; simpl; [| done].
  destruct (py_truthy opt) as [[|] | e]; simpl; try done.
  unfold to_csv.
  destruct output_path; simpl; try done; by destruct (writable s).
Qed.

Lemma imread_beside_model path :
  keeps beside_model (on_world (cv2_imread path)).
Proof. intros [self w]. unfold on_world, cv2_imread. simpl. by destruct path. Qed.

Lemma predict_custom_loop_beside_model opt output_path l : forall acc df,
  keeps beside_model (predict_custom_loop opt output_path l acc df).
Proof.
  induction l as [| path rest IH]; intros acc df; simpl.
  - apply keeps_ret.
  - apply keeps_bind; [apply imread_beside_model | intros io].
    apply keeps_bind; [apply keeps_lift | intros i].
    apply keeps_bind; [apply infer_one_beside_model | intros r]. apply IH.
Qed.

Lemma predict_loop_beside_model opt output_path ds : forall acc df,
  keeps beside_model (predict_loop opt output_path ds acc df).
Proof.
  induction ds as [| [element path] rest IH]; intros acc df; simpl.
  - apply keeps_ret.
  - apply keeps_bind; [apply keeps_lift | intros i].
    apply keeps_bind; [apply infer_one_beside_model | intros r]. apply IH.
Qed.

(** X21.  Inference only predicts: [predict] and [predict_custom] never
    log, never touch the draw node and never change a constant, whether
    they return or raise. *)
Theorem predict_leaves_draw_node_and_log
    (dataset : list (image * value)) (image_list : list value)
    (save_output_option output_path : value) (st : pipeline * world) :
  beside_model (snd (predict dataset save_output_option output_path st))
  = beside_model st /\
  beside_model (snd (predict_custom image_list save_output_option output_path st))
  = beside_model st.
Proof.
  split.
  - apply (keeps_bind beside_model); [apply predict_loop_beside_model |].
    intros [df |]; [apply keeps_ret | apply keeps_raise].
  - apply (keeps_bind beside_model); [apply predict_custom_loop_beside_model |].
    intros [df |]; [apply keeps_ret | apply keeps_raise].
Qed.

End ColumnsAndFrames.

Lemma demo_wide_agrees :
  Forall2 (fun a a' => forall k, k ∈ annotation_columns ->
                                 dict_get a k = dict_get a' k)
          (iterrows demo_annotations) (iterrows demo_annotations_wide).
Proof.
  repeat constructor; intros k Hk; apply list_elem_of_In in Hk; simpl in Hk;
    repeat (destruct Hk as [<- | Hk]; [reflexivity |]); destruct Hk.
Defined.

Lemma generate_annotations_reads_six_columns_witness :
  Forall2 (fun a a' => forall k, k ∈ annotation_columns ->
                                 dict_get a k = dict_get a' k)
          (iterrows demo_annotations) (iterrows demo_annotations_wide) /\
  EfficientDetPipeline.generate_annotations (E := demo_externals) "train.csv"
    (Some demo_annotations) demo_world
  = EfficientDetPipeline.generate_annotations (E := demo_externals) "train.csv"
      (Some demo_annotations_wide) demo_world.
Proof.
  split; [exact demo_wide_agrees |].
  exact (generate_annotations_reads_six_columns (E := demo_externals)
           "train.csv" demo_annotations demo_annotations_wide demo_world
           demo_wide_agrees).
Defined.
